(** * Chat message normalization and synchronization: a Rocq model

    A shallow embedding of the chat subsystem of the notebook application:
    the two message normalizers ([transformDbRowToChatMessages] and the
    legacy [transformMessage]), the realtime cache merge, the chat-history
    deletion, the retry policy of the reads, the notebooks hook, the two
    edge-function handlers ([send-chat-message], [create-notebook]) with the
    client mutations that call them, and the direct-write variant of the
    chat hook.

    Values typed [any] in the TypeScript source are modelled by [JsVal],
    exceptions by the [Exc] monad, JavaScript [Map]s by [gmap], [Set]s by
    [gset]. *)

From stdpp Require Import base option list strings pretty gmap.

Set Warnings "-register-all".
Open Scope string_scope.
Open Scope Z_scope.

(** ** Exceptions *)

(** A computation either returns a value or throws; [Throw] carries the
    exception's [message]. *)
Inductive Exc (A : Type) : Type :=
  | Return (a : A)
  | Throw (msg : string).
Arguments Return {A} a.
Arguments Throw {A} msg.

Global Instance Exc_ret : MRet Exc := fun _ a => Return a.
Global Instance Exc_bind : MBind Exc := fun _ _ f m =>
  match m with
  | Return a => f a
  | Throw e => Throw e
  end.

(** [try { body } catch (e) { handler e }] *)
Definition try_catch {A} (body : Exc A) (handler : string -> A) : A :=
  match body with
  | Return a => a
  | Throw e => handler e
  end.

Definition returns {A} (m : Exc A) : Prop := exists a, m = Return a.

(** ** JavaScript values *)

Module Js.

(** Numbers are restricted to integers: every number the program inspects
    (an array length, an index, a counter) is one.  An object is the list of
    its own properties, each key appearing once. *)
Inductive JsVal : Type :=
  | JUndefined
  | JNull
  | JBool (b : bool)
  | JNum (n : Z)
  | JStr (s : string)
  | JArr (items : list JsVal)
  | JObj (fields : list (string * JsVal)).

(** ToBoolean *)
Definition truthy (v : JsVal) : bool :=
  match v with
  | JUndefined | JNull => false
  | JBool b => b
  | JNum n => negb (n =? 0)
  | JStr s => negb (String.eqb s "")
  | JArr _ | JObj _ => true
  end.

(** [a || b] *)
Definition or_else (a b : JsVal) : JsVal := if truthy a then a else b.

Fixpoint assoc (k : string) (fields : list (string * JsVal)) : option JsVal :=
  match fields with
  | [] => None
  | (k', v) :: rest => if String.eqb k k' then Some v else assoc k rest
  end.

(** [k in o] for an object [o] *)
Definition has_key (k : string) (fields : list (string * JsVal)) : bool :=
  match assoc k fields with Some _ => true | None => false end.

(** Property read [v.k], for the property names the program reads (data
    fields and [length]).  Reading a property of [undefined] or [null]
    throws a TypeError; a missing property reads as [undefined]. *)
Definition get (v : JsVal) (k : string) : Exc JsVal :=
  match v with
  | JUndefined | JNull => Throw "TypeError: cannot read properties of undefined or null"
  | JObj fields => Return (default JUndefined (assoc k fields))
  | JArr items =>
      Return (if String.eqb k "length" then JNum (Z.of_nat (length items)) else JUndefined)
  | JStr s =>
      Return (if String.eqb k "length" then JNum (Z.of_nat (String.length s)) else JUndefined)
  | JBool _ | JNum _ => Return JUndefined
  end.

(** Optional chaining [v?.k] *)
Definition get_opt (v : JsVal) (k : string) : JsVal :=
  match v with
  | JUndefined | JNull => JUndefined
  | _ => try_catch (get v k) (fun _ => JUndefined)
  end.

Definition join (sep : string) (parts : list string) : string :=
  match parts with
  | [] => ""
  | p :: ps => fold_left (fun acc q => acc +:+ sep +:+ q) ps p
  end.

(** ToString, as used by template literals.  Numbers are the integers of
    the model and are printed in decimal, as JavaScript prints an integer
    whose magnitude is below 1e21 (from there on it uses exponent form). *)
Fixpoint toString (v : JsVal) : string :=
  match v with
  | JUndefined => "undefined"
  | JNull => "null"
  | JBool true => "true"
  | JBool false => "false"
  | JNum n => pretty n
  | JStr s => s
  | JArr items =>
      join ","
        ((fix each (l : list JsVal) : list string :=
            match l with
            | [] => []
            | JUndefined :: l' | JNull :: l' => "" :: each l'
            | x :: l' => toString x :: each l'
            end) items)
  | JObj _ => "[object Object]"
  end.

(** [v === s] for a string literal [s] *)
Definition strictEqStr (v : JsVal) (s : string) : bool :=
  match v with JStr s' => String.eqb s' s | _ => false end.

(** [v] is [undefined] or [null] *)
Definition nullish (v : JsVal) : bool :=
  match v with JUndefined | JNull => true | _ => false end.

Definition isArray (v : JsVal) : bool :=
  match v with JArr _ => true | _ => false end.

(** [typeof v === 'string'] *)
Definition isString (v : JsVal) : bool :=
  match v with JStr _ => true | _ => false end.

(** [typeof v === 'object'] *)
Definition isObjectType (v : JsVal) : bool :=
  match v with JNull | JArr _ | JObj _ => true | _ => false end.

End Js.
Export Js.

(** ** Normalized messages *)

(** [Citation] and [MessageSegment] of [@/types/message]: fields copied from
    [any]-typed input keep their [JsVal]; [citation_id] is always a number
    computed by the normalizer. *)
Record Citation : Type := mkCitation {
  citation_id : Z;
  source_id : JsVal;
  source_title : JsVal;
  source_type : JsVal;
  chunk_lines_from : JsVal;
  chunk_lines_to : JsVal;
  chunk_index : JsVal;
  excerpt : JsVal
}.

(** [seg_citation_id = None] is the source's [citation_id: undefined]. *)
Record MessageSegment : Type := mkSegment {
  text : JsVal;
  seg_citation_id : option Z
}.

(** The [content] of a message.  [Plain v] is a value handed on as it
    came: a string in the usual case, but any value of the input, an object
    that already has the [{segments, citations}] shape included.
    [Structured] is the [{segments, citations}] object that a normalizer has
    built itself.  JavaScript has no such tag; it records where the content
    comes from. *)
Inductive Content : Type :=
  | Plain (v : JsVal)
  | Structured (segments : list MessageSegment) (citations : list Citation).

Inductive MessageType : Type := human | ai.

Record Message : Type := mkMessage {
  type : MessageType;
  content : Content;
  additional_kwargs : JsVal;
  response_metadata : JsVal;
  tool_calls : JsVal;
  invalid_tool_calls : JsVal
}.

(** A message literal [{type, content}] without the optional fields. *)
Definition simpleMessage (t : MessageType) (c : Content) : Message :=
  mkMessage t c JUndefined JUndefined JUndefined JUndefined.

(** [EnhancedChatMessage]; [Id] is [string] for the messages derived from a
    [chat_messages] row (the id is a template literal) and [JsVal] for the
    legacy shape (the id is copied from the input). *)
Record EnhancedChatMessage (Id : Type) : Type := mkChatMessage {
  msg_id : Id;
  session_id : JsVal;
  message : Message
}.
Arguments mkChatMessage {Id} msg_id session_id message.
Arguments msg_id {Id} e.
Arguments session_id {Id} e.
Arguments message {Id} e.

(** ** The row normalizer: [transformDbRowToChatMessages] *)

Module RowNormalizer.

(** A [chat_messages] row (source fields [id], [notebook_id], [user_message],
    [assistant_response], [citations], [timestamp]); the normalizer takes it
    as [any]. *)
Record ChatRow : Type := mkChatRow {
  row_id : JsVal;
  notebook_id : JsVal;
  user_message : JsVal;
  assistant_response : JsVal;
  row_citations : JsVal;
  timestamp : JsVal
}.

(** The callback of [item.citations.map((citation, index) => ...)]. *)
Definition transformCitation (citation : JsVal) (index : nat) : Exc Citation :=
  sid ← get citation "source_id";
  stitle ← get citation "source_title";
  stype ← get citation "source_type";
  lfrom ← get citation "chunk_lines_from";
  lto ← get citation "chunk_lines_to";
  cidx ← get citation "chunk_index";
  exc ← get citation "excerpt";
  mret {| citation_id := Z.of_nat index + 1;
          source_id := or_else sid (JStr "");
          source_title := or_else stitle (JStr "Unknown Source");
          source_type := or_else stype (JStr "book");
          chunk_lines_from := lfrom;
          chunk_lines_to := lto;
          chunk_index := or_else cidx (JNum (Z.of_nat index));
          excerpt := exc |}.

(** [Array.prototype.map] with a callback that may throw; [index] is the
    index of the head of [l]. *)
Fixpoint mapi_exc {A B} (f : A -> nat -> Exc B) (l : list A) (index : nat)
  : Exc (list B) :=
  match l with
  | [] => mret []
  | x :: l' =>
      y ← f x index;
      ys ← mapi_exc f l' (S index);
      mret (y :: ys)
  end.

Definition userMessage (item : ChatRow) : EnhancedChatMessage string :=
  {| msg_id := toString (row_id item) +:+ "-user";
     session_id := notebook_id item;
     message := simpleMessage human (Plain (user_message item)) |}.

(** [messageContent] of the assistant message: structured when
    [item.citations && Array.isArray(item.citations) && item.citations.length > 0],
    the response as it is otherwise. *)
Definition messageContent (item : ChatRow) : Exc Content :=
  match row_citations item with
  | JArr cs =>
      if 0 <? Z.of_nat (length cs) then
        transformedCitations ← mapi_exc transformCitation cs 0;
        let segments :=
          [ {| text := assistant_response item;
               seg_citation_id :=
                 if 0 <? Z.of_nat (length transformedCitations) then Some 1 else None |} ] in
        mret (Structured segments transformedCitations)
      else mret (Plain (assistant_response item))
  | _ => mret (Plain (assistant_response item))
  end.

Definition assistantMessage (item : ChatRow) (c : Content) : EnhancedChatMessage string :=
  {| msg_id := toString (row_id item) +:+ "-assistant";
     session_id := notebook_id item;
     message := simpleMessage ai c |}.

(** The lookup table [bookMap] is an argument of the source function that
    its body never reads. *)
Definition transformDbRowToChatMessages (item : ChatRow) (bookMap : gmap string JsVal)
  : Exc (list (EnhancedChatMessage string)) :=
  let messages := [userMessage item] in
  if truthy (assistant_response item) then
    c ← messageContent item;
    mret (messages ++ [assistantMessage item c])%list
  else mret messages.

(** The variant of [hooks/useChatMessages.tsx], [transformChatMessage]: it
    builds both messages unconditionally and returns the pair. *)
Definition transformChatMessage (item : ChatRow) (bookMap : gmap string JsVal)
  : list (EnhancedChatMessage string) :=
  [ userMessage item;
    assistantMessage item
      (Plain (or_else (assistant_response item) (JStr "No response yet"))) ].

End RowNormalizer.

(** ** The legacy normalizer: [transformMessage] *)

(** What the program takes from the JavaScript runtime: [JSON.parse], and
    whether the number a string converts to is greater than zero (the
    string case of the comparison [v > 0]). *)
Class Runtime : Type := {
  JSON_parse : string -> Exc JsVal;
  StringToNumber_gt0 : string -> bool
}.

Module LegacyNormalizer.

(** A row of the legacy history table, [{id, session_id, message}]. *)
Record HistoryItem : Type := mkHistoryItem {
  item_id : JsVal;
  item_session_id : JsVal;
  item_message : JsVal
}.

(** Loop state of the [forEach] over [parsedContent.output]. *)
Record Acc : Type := mkAcc {
  segments : list MessageSegment;
  citations : list Citation;
  citationIdCounter : Z
}.

(** [sourceMap.get(key)]; the keys of the map are strings. *)
Definition mapGet (sourceMap : gmap string JsVal) (key : JsVal) : JsVal :=
  match key with
  | JStr k => default JUndefined (sourceMap !! k)
  | _ => JUndefined
  end.

Section WithRuntime.
Context {runtime : Runtime}.

(** [v > 0] *)
Definition gt_zero (v : JsVal) : bool :=
  match v with
  | JNum n => 0 <? n
  | JBool b => b
  | JUndefined | JNull => false
  | JStr s => StringToNumber_gt0 s
  | JArr _ | JObj _ => StringToNumber_gt0 (toString v)
  end.

(** [outputItem.citations && outputItem.citations.length > 0] *)
Definition hasCitations (outputItem : JsVal) : Exc bool :=
  cits ← get outputItem "citations";
  if truthy cits then
    len ← get cits "length";
    mret (gt_zero len)
  else mret false.

(** The object pushed for one [citation] of an output item. *)
Definition citationEntry (sourceMap : gmap string JsVal) (counter : Z) (citation : JsVal)
  : Exc Citation :=
  csid ← get citation "chunk_source_id";
  let sourceInfo := mapGet sourceMap csid in
  lfrom ← get citation "chunk_lines_from";
  lto ← get citation "chunk_lines_to";
  cidx ← get citation "chunk_index";
  mret {| citation_id := counter;
          source_id := csid;
          source_title := or_else (get_opt sourceInfo "title") (JStr "Unknown Source");
          source_type := or_else (get_opt sourceInfo "type") (JStr "pdf");
          chunk_lines_from := lfrom;
          chunk_lines_to := lto;
          chunk_index := cidx;
          excerpt := JStr ("Lines " +:+ toString lfrom +:+ "-" +:+ toString lto) |}.

(** [outputItem.citations.forEach(...)], pushing onto [citations]. *)
Fixpoint pushCitations (sourceMap : gmap string JsVal) (counter : Z)
    (cits : list JsVal) (citations : list Citation) : Exc (list Citation) :=
  match cits with
  | [] => mret citations
  | citation :: rest =>
      c ← citationEntry sourceMap counter citation;
      pushCitations sourceMap counter rest (citations ++ [c])%list
  end.

(** The body of [parsedContent.output.forEach((outputItem) => ...)]. *)
Definition processOutputItem (sourceMap : gmap string JsVal) (acc : Acc) (outputItem : JsVal)
  : Exc Acc :=
  txt ← get outputItem "text";
  cited ← hasCitations outputItem;
  let counter := citationIdCounter acc in
  let segments' :=
    (segments acc ++ [ {| text := txt;
                          seg_citation_id := if (cited : bool) then Some counter else None |} ])%list in
  if cited then
    cits ← get outputItem "citations";
    match cits with
    | JArr l =>
        citations' ← pushCitations sourceMap counter l (citations acc);
        mret (mkAcc segments' citations' (counter + 1))
    | _ => Throw "TypeError: outputItem.citations.forEach is not a function"
    end
  else mret (mkAcc segments' (citations acc) counter).

Fixpoint forEachOutput (sourceMap : gmap string JsVal) (output : list JsVal) (acc : Acc)
  : Exc Acc :=
  match output with
  | [] => mret acc
  | outputItem :: rest =>
      acc' ← processOutputItem sourceMap acc outputItem;
      forEachOutput sourceMap rest acc'
  end.

(** The body of the [try] block: the content of the transformed message. *)
Definition parseAiContent (sourceMap : gmap string JsVal) (contentStr : string) : Exc Content :=
  parsedContent ← JSON_parse contentStr;
  output ← get parsedContent "output";
  match output with
  | JArr items =>
      acc ← forEachOutput sourceMap items (mkAcc [] [] 1);
      mret (Structured (segments acc) (citations acc))
  | _ => mret (Plain (JStr contentStr))
  end.

(** [try { ... } catch (parseError) { ... }] inside a computation. *)
Definition catch {A} (body : Exc A) (handler : string -> Exc A) : Exc A :=
  match body with
  | Return a => Return a
  | Throw e => handler e
  end.

(** The message literal of the last [else] of the object case: the type is
    kept when it is ['human'], the content defaults to ['Empty message']. *)
Definition passThroughMessage (ty ct kw rm tc itc : JsVal) : Message :=
  mkMessage (if strictEqStr ty "human" then human else ai)
            (Plain (or_else ct (JStr "Empty message"))) kw rm tc itc.

Definition transformedMessage (msg : JsVal) (sourceMap : gmap string JsVal) : Exc Message :=
  match msg with
  | JObj fields =>
      if has_key "type" fields && has_key "content" fields then
        ty ← get msg "type";
        ct ← get msg "content";
        kw ← get msg "additional_kwargs";
        rm ← get msg "response_metadata";
        tc ← get msg "tool_calls";
        itc ← get msg "invalid_tool_calls";
        match ct with
        | JStr contentStr =>
            if strictEqStr ty "ai" then
              c ← catch (parseAiContent sourceMap contentStr)
                        (fun parseError => mret (Plain (JStr contentStr)));
              mret (mkMessage ai c kw rm tc itc)
            else mret (passThroughMessage ty ct kw rm tc itc)
        | _ => mret (passThroughMessage ty ct kw rm tc itc)
        end
      else mret (simpleMessage human (Plain (JStr "Unable to parse message")))
  | JStr s => mret (simpleMessage human (Plain (JStr s)))
  | _ => mret (simpleMessage human (Plain (JStr "Unable to parse message")))
  end.

Definition transformMessage (item : HistoryItem) (sourceMap : gmap string JsVal)
  : Exc (EnhancedChatMessage JsVal) :=
  m ← transformedMessage (item_message item) sourceMap;
  mret {| msg_id := item_id item;
          session_id := item_session_id item;
          message := m |}.

End WithRuntime.

End LegacyNormalizer.

(** ** The synchronization layer: [useChatMessages] *)

Module ChatSync.
Import RowNormalizer.

Abbreviation ChatMessage := (EnhancedChatMessage string).

(** State of one query of the query client: its cached [data] ([None] when
    the query has no data yet) and whether it was invalidated, which makes
    the client refetch it. *)
Record QueryState : Type := mkQueryState {
  data : option (list ChatMessage);
  isInvalidated : bool
}.

(** The query cache, restricted to the keys [['chat-messages', notebookId]]
    and indexed by [notebookId]. *)
Abbreviation QueryCache := (gmap string QueryState).

(** [queryClient.setQueryData(key, updater)]: the updater receives the
    cached data (or [undefined]); the result becomes the data of a fresh,
    valid entry. *)
Definition setQueryData (key : string)
    (updater : option (list ChatMessage) -> list ChatMessage) (cache : QueryCache)
  : QueryCache :=
  <[key := mkQueryState (Some (updater (cache !! key ≫= data))) false]> cache.

(** [queryClient.invalidateQueries({queryKey})]: an existing entry is marked
    invalidated. *)
Definition invalidateQueries (key : string) (cache : QueryCache) : QueryCache :=
  alter (fun q => mkQueryState (data q) true) key cache.

(** The updater of the realtime INSERT handler;
    [(oldMessages: EnhancedChatMessage[] = [])] is the default parameter. *)
Definition mergeNewMessages (newMessages : list ChatMessage)
    (cached : option (list ChatMessage)) : list ChatMessage :=
  let oldMessages := default [] cached in
  let existingIds : gset string := list_to_set (msg_id <$> oldMessages) in
  let newMessagesToAdd :=
    filter (fun msg : ChatMessage => msg_id msg ∉ existingIds) newMessages in
  if decide (length newMessagesToAdd = 0%nat) then oldMessages
  else (oldMessages ++ newMessagesToAdd)%list.

(** The ids of the messages of a list. *)
Definition idsOf (ms : list ChatMessage) : gset string := list_to_set (msg_id <$> ms).

(** The text a row's id contributes to the ids of its messages
    ([`${item.id}`]). *)
Definition rowKey (r : ChatRow) : string := toString (row_id r).

(** A row of the [books] table, as selected ([id, title, author]). *)
Record Book : Type := mkBook {
  book_id : string;
  title : string;
  author : string
}.

(** [new Map(booksData?.map(b => [b.id, { title: b.title, type: 'book' }]) || [])];
    a later entry replaces an earlier one with the same key. *)
Definition makeBookMap (booksData : option (list Book)) : gmap string JsVal :=
  fold_left
    (fun m b => <[book_id b := JObj [("title", JStr (title b)); ("type", JStr "book")]]> m)
    (default [] booksData) ∅.

(** The realtime handler for an INSERT on [chat_messages]: the pushed row is
    normalized and merged into the cache of [notebookId].  When the
    normalizer throws, the handler's promise rejects and the cache is left as
    it was. *)
Definition onInsert (notebookId : string) (booksData : option (list Book))
    (payload_new : ChatRow) (cache : QueryCache) : QueryCache :=
  let bookMap := makeBookMap booksData in
  match transformDbRowToChatMessages payload_new bookMap with
  | Return newMessages => setQueryData notebookId (mergeNewMessages newMessages) cache
  | Throw _ => cache
  end.

(** The [chat_messages] table: its rows in ascending [timestamp] order. *)
Abbreviation Table := (list ChatRow).

(** [.eq('notebook_id', notebookId)] *)
Definition eqNotebook (notebookId : string) (r : ChatRow) : bool :=
  strictEqStr (notebook_id r) notebookId.

(** [Array.prototype.flatMap] with a callback that may throw. *)
Fixpoint flatMap_exc {A B} (f : A -> Exc (list B)) (l : list A) : Exc (list B) :=
  match l with
  | [] => mret []
  | x :: l' =>
      ys ← f x;
      rest ← flatMap_exc f l';
      mret (ys ++ rest)%list
  end.

(** The [queryFn] of the chat-messages query.  [selectError] is the error of
    the row select, if that call fails; [notebookId] is [None] when the hook
    has no notebook. *)
Definition queryFn (notebookId : option string) (selectError : option string)
    (booksData : option (list Book)) (table : Table) : Exc (list ChatMessage) :=
  match notebookId with
  | None => mret []
  | Some nb =>
      if String.eqb nb "" then mret []
      else
        match selectError with
        | Some e => Throw e
        | None =>
            let data := filter (fun r => eqNotebook nb r = true) table in
            let bookMap := makeBookMap booksData in
            flatMap_exc (fun item => transformDbRowToChatMessages item bookMap) data
        end
  end.

(** Client state: the remote table and the local query cache. *)
Record State : Type := mkState {
  table : Table;
  cache : QueryCache
}.

(** [mutationFn] of [deleteChatHistory]: [user] is the signed-in user, if
    any; [deleteError] is the error of the delete call, if it fails (the
    table is then unchanged). *)
Definition deleteMutationFn (user : option string) (deleteError : option string)
    (notebookId : string) (tbl : Table) : Exc string * Table :=
  match user with
  | None => (Throw "User not authenticated", tbl)
  | Some _ =>
      match deleteError with
      | Some e => (Throw e, tbl)
      | None => (Return notebookId, filter (fun r => eqNotebook notebookId r = false) tbl)
      end
  end.

(** [onSuccess] of [deleteChatHistory] ("Clear the query data and refetch to
    confirm"); the toast is not modelled. *)
Definition deleteOnSuccess (notebookId : string) (c : QueryCache) : QueryCache :=
  invalidateQueries notebookId (setQueryData notebookId (fun _ => []) c).

(** [deleteChatHistory.mutate(notebookId)]: [onSuccess] runs when the
    mutation function returns; [onError] only reports. *)
Definition deleteChatHistory (user : option string) (deleteError : option string)
    (notebookId : string) (st : State) : State :=
  match deleteMutationFn user deleteError notebookId (table st) with
  | (Return nb, tbl') => mkState tbl' (deleteOnSuccess nb (cache st))
  | (Throw _, tbl') => mkState tbl' (cache st)
  end.

(** What [listChatMessages] shows: the cached data, [[]] when there is none
    ([data: messages = []]). *)
Definition messages (notebookId : string) (st : State) : list ChatMessage :=
  default [] (cache st !! notebookId ≫= data).

(** The refetch of an invalidated query: the [queryFn] runs against the
    table and a successful result replaces the cached data; a failed
    fetch keeps the data. *)
Definition refetch (notebookId : string) (selectError : option string)
    (booksData : option (list Book)) (st : State) : State :=
  match queryFn (Some notebookId) selectError booksData (table st) with
  | Return ms => mkState (table st) (setQueryData notebookId (fun _ => ms) (cache st))
  | Throw _ => st
  end.

End ChatSync.

(** ** Retry policy of the reads *)

Module Retry.

(** [String.prototype.includes] *)
Fixpoint includes (s sub : string) : bool :=
  if String.prefix sub s then true
  else match s with
       | EmptyString => false
       | String _ s' => includes s' sub
       end.

(** The error a failed read hands to the query client; [err_message] is
    [None] when it has no [message]. *)
Record QueryError : Type := mkQueryError {
  err_message : option string
}.

(** [error?.message?.includes(sub)], as a condition *)
Definition messageIncludes (error : QueryError) (sub : string) : bool :=
  match err_message error with
  | Some m => includes m sub
  | None => false
  end.

(** The error text indicates an authentication failure. *)
Definition isAuthError (error : QueryError) : bool :=
  messageIncludes error "JWT" || messageIncludes error "auth".

(** The [retry] option of the notebooks query. *)
Definition useNotebooks_retry (failureCount : nat) (error : QueryError) : bool :=
  if messageIncludes error "JWT" || messageIncludes error "auth" then false
  else (failureCount <? 3)%nat.

(** The options object of a query, as far as retrying goes. *)
Record QueryOptions : Type := mkQueryOptions {
  retry : option (nat -> QueryError -> bool)
}.

Definition notebooksQueryOptions : QueryOptions :=
  {| retry := Some useNotebooks_retry |}.

(** The chat-messages query passes [queryKey], [queryFn], [enabled],
    [refetchOnMount] and [refetchOnReconnect], and no [retry]. *)
Definition chatMessagesQueryOptions : QueryOptions :=
  {| retry := None |}.

(** The policy the query library ships with: three retries, whatever the
    error. *)
Definition libraryDefaultRetry (failureCount : nat) (error : QueryError) : bool :=
  (failureCount <? 3)%nat.

Section QueryClient.

(** The retry policy the query client applies to a query whose options give
    none. *)
Variable defaultRetry : nat -> QueryError -> bool.

Definition shouldRetry (opts : QueryOptions) (failureCount : nat) (error : QueryError) : bool :=
  match retry opts with
  | Some f => f failureCount error
  | None => defaultRetry failureCount error
  end.

(** The client's fetch loop.  [attempt k] is the outcome of the fetch made
    after [k] failures ([None]: it succeeded).  The result is the final
    outcome together with the number of retries made, or [None] when [fuel]
    runs out. *)
Fixpoint fetchLoop (opts : QueryOptions) (attempt : nat -> option QueryError)
    (fuel : nat) (failureCount : nat) : option (option QueryError * nat) :=
  match fuel with
  | O => None
  | S fuel' =>
      match attempt failureCount with
      | None => Some (None, failureCount)
      | Some error =>
          if shouldRetry opts failureCount error
          then fetchLoop opts attempt fuel' (S failureCount)
          else Some (Some error, failureCount)
      end
  end.

End QueryClient.

End Retry.

(** ** The edge functions *)

Module Edge.
Import RowNormalizer.

Record Response : Type := mkResponse {
  status : Z;
  headers : list (string * string);
  body : JsVal
}.

(** [new Response(body, { status, headers })]; the status is 200 when the
    init object gives none. *)
Definition newResponse (body : JsVal) (init_status : option Z)
    (init_headers : list (string * string)) : Response :=
  mkResponse (default 200 init_status) init_headers body.

Definition corsHeaders : list (string * string) :=
  [ ("Access-Control-Allow-Origin", "*");
    ("Access-Control-Allow-Headers", "authorization, x-client-info, apikey, content-type") ].

(** [{ ...corsHeaders, 'Content-Type': 'application/json' }] *)
Definition jsonHeaders : list (string * string) :=
  (corsHeaders ++ [("Content-Type", "application/json")])%list.

(** A request: its method and what [await req.json()] gives. *)
Record Request : Type := mkRequest {
  method : string;
  json : Exc JsVal
}.

(** The response the remote backend gave to a [fetch]. *)
Record FetchResponse : Type := mkFetchResponse {
  ok : bool;
  fetch_status : Z;
  fetch_text : string;
  fetch_json : Exc JsVal
}.

(** The [{ data, error }] result of a store call; [error] holds the error's
    [message]. *)
Record StoreResult (A : Type) : Type := mkStoreResult {
  data : A;
  error : option string
}.
Arguments mkStoreResult {A} data error.
Arguments data {A} s.
Arguments error {A} s.

(** The [catch] block of both handlers. *)
Definition errorResponse (fallback : string) (message : string) : Response :=
  newResponse
    (JObj [("error", or_else (JStr message) (JStr fallback))])
    (Some 500) jsonHeaders.

(** A handler body: a computation over a table of type [T] that may throw;
    the table survives a throw. *)
Definition Handler (T A : Type) : Type := T -> Exc A * T.

#[global] Instance Handler_ret {T} : MRet (Handler T) := fun _ a t => (Return a, t).
#[global] Instance Handler_bind {T} : MBind (Handler T) := fun _ _ f m t =>
  match m t with
  | (Return a, t') => f a t'
  | (Throw e, t') => (Throw e, t')
  end.

(** [throw new Error(msg)] *)
Definition throw {T A} (msg : string) : Handler T A := fun t => (Throw msg, t).

(** A computation that does not touch the table. *)
Definition lift {T A} (m : Exc A) : Handler T A := fun t => (m, t).

(** [try { body } catch (error) { errorResponse }] around a handler body. *)
Definition respond {T} (fallback : string) (bodyM : Handler T Response) (t : T)
  : Response * T :=
  match bodyM t with
  | (Return r, t') => (r, t')
  | (Throw e, t') => (errorResponse fallback e, t')
  end.

(** *** [send-chat-message] *)

(** The columns the handler selects from the notebook. *)
Record NotebookRow : Type := mkNotebookRow {
  selected_books : option (list string);
  selected_genres : option (list string);
  user_id : string
}.

(** What the collaborators answer during one request: the notebook lookup,
    the select of the books of the selected genres, the backend call
    ([Throw] when [fetch] itself fails), and the insert of the chat row with
    the id and timestamp the store generates. *)
Record SendEnv : Type := mkSendEnv {
  notebookResult : StoreResult (option NotebookRow);
  genreBooksResult : StoreResult (option (list string));
  fetchResult : Exc FetchResponse;
  insertError : option string;
  insertedId : string;
  insertedTimestamp : string
}.

(** [[...new Set(l)]]: the first occurrence of each element, in order. *)
Fixpoint uniq (seen l : list string) : list string :=
  match l with
  | [] => []
  | x :: l' => if decide (x ∈ seen) then uniq seen l' else x :: uniq (x :: seen) l'
  end.

(** The book ids of the notebook's context (only logged by the handler). *)
Definition allBookIds (notebook : NotebookRow) (genreBooks : StoreResult (option (list string)))
  : list string :=
  let ids := default [] (selected_books notebook) in
  match selected_genres notebook with
  | Some (_ :: _) =>
      match error genreBooks, data genreBooks with
      | None, Some genreBookIds => uniq [] (ids ++ genreBookIds)%list
      | _, _ => ids
      end
  | _ => ids
  end.

(** [.insert({...}).select().single()] on [chat_messages]. *)
Definition insertChatMessage (env : SendEnv)
    (notebookId message response citations : JsVal) : Handler (list ChatRow) ChatRow :=
  fun tbl =>
    match insertError env with
    | Some m => (Throw ("Failed to save chat message: " +:+ m), tbl)
    | None =>
        let r := {| row_id := JStr (insertedId env);
                    notebook_id := notebookId;
                    user_message := message;
                    assistant_response := response;
                    row_citations := citations;
                    timestamp := JStr (insertedTimestamp env) |} in
        (Return r, (tbl ++ [r])%list)
    end.

Definition rowToJson (r : ChatRow) : JsVal :=
  JObj [ ("id", row_id r); ("notebook_id", notebook_id r);
         ("user_message", user_message r);
         ("assistant_response", assistant_response r);
         ("citations", row_citations r); ("timestamp", timestamp r) ].

(** The [try] block of the handler. *)
Definition sendChatMessageBody (req : Request) (env : SendEnv)
  : Handler (list ChatRow) Response :=
  j ← lift (json req);
  notebookId ← lift (get j "notebookId");
  message ← lift (get j "message");
  if negb (truthy notebookId) || negb (truthy message) then
    throw "notebookId and message are required"
  else
    match error (notebookResult env) with
    | Some m => throw ("Failed to fetch notebook: " +:+ m)
    | None =>
        notebook ← lift (match data (notebookResult env) with
                         | Some n => Return n
                         | None => Throw "TypeError: cannot read properties of null"
                         end);
        let bookIds := allBookIds notebook (genreBooksResult env) in
        backendResponse ← lift (fetchResult env);
        if negb (ok backendResponse) then
          throw ("Backend API error: " +:+ pretty (fetch_status backendResponse))
        else
          backendData ← lift (fetch_json backendResponse);
          resp ← lift (get backendData "response");
          msg ← lift (get backendData "message");
          cits ← lift (get backendData "citations");
          chatMessage ← insertChatMessage env notebookId message
                          (or_else (or_else resp msg) (JStr "No response"))
                          (or_else cits JNull);
          mret (newResponse
                  (JObj [ ("success", JBool true);
                          ("message", rowToJson chatMessage);
                          ("response", backendData) ])
                  None jsonHeaders)
    end.

(** The handler passed to [serve]. *)
Definition sendChatMessage (req : Request) (env : SendEnv) (tbl : list ChatRow)
  : Response * list ChatRow :=
  if String.eqb (method req) "OPTIONS" then (newResponse JNull None corsHeaders, tbl)
  else respond "Failed to process chat message" (sendChatMessageBody req env) tbl.

(** *** [create-notebook] *)

(** What the collaborators answer during one request. *)
Record CreateEnv : Type := mkCreateEnv {
  create_fetchResult : Exc FetchResponse;
  create_insertError : option string;
  create_insertedId : string
}.

(** [.insert({...}).select().single()] on [notebooks]; the table holds the
    rows as objects. *)
Definition insertNotebook (env : CreateEnv) (name user : JsVal)
  : Handler (list JsVal) JsVal :=
  fun tbl =>
    match create_insertError env with
    | Some m => (Throw ("Failed to create notebook: " +:+ m), tbl)
    | None =>
        let r := JObj [ ("id", JStr (create_insertedId env)); ("name", name);
                        ("user_id", user); ("selected_books", JArr []);
                        ("selected_genres", JArr []); ("memory_summary", JStr "");
                        ("key_facts", JArr []) ] in
        (Return r, (tbl ++ [r])%list)
    end.

Definition createdResponse (notebook backendData : JsVal) : Response :=
  newResponse
    (JObj [ ("success", JBool true); ("notebook", notebook);
            ("backend_response", backendData) ])
    None jsonHeaders.

(** [const { name, user_id } = await req.json()] and the validation. *)
Definition createArguments (req : Request) : Exc (JsVal * JsVal) :=
  j ← json req;
  name ← get j "name";
  user ← get j "user_id";
  if negb (truthy name) || negb (truthy user) then Throw "name and user_id are required"
  else mret (name, user).

(** The variant of [functions/create-notebook/index.ts]: the row is inserted
    first and the backend call is not blocking. *)
Definition createNotebookBody (req : Request) (env : CreateEnv)
  : Handler (list JsVal) Response :=
  args ← lift (createArguments req);
  notebook ← insertNotebook env args.1 args.2;
  let backendData :=
    try_catch
      (backendResponse ← create_fetchResult env;
       if ok backendResponse then fetch_json backendResponse else mret JNull)
      (fun backendError => JNull) in
  mret (createdResponse notebook backendData).

Definition createNotebook (req : Request) (env : CreateEnv) (tbl : list JsVal)
  : Response * list JsVal :=
  if String.eqb (method req) "OPTIONS" then (newResponse JNull None corsHeaders, tbl)
  else respond "Failed to create notebook" (createNotebookBody req env) tbl.

(** The other variant in the lineage: the backend is called first and its
    failure blocks the creation. *)
Definition createNotebookBlockingBody (req : Request) (env : CreateEnv)
  : Handler (list JsVal) Response :=
  args ← lift (createArguments req);
  backendResponse ← lift (create_fetchResult env);
  if negb (ok backendResponse) then
    throw ("Backend API error: " +:+ pretty (fetch_status backendResponse))
  else
    backendData ← lift (fetch_json backendResponse);
    notebook ← insertNotebook env args.1 args.2;
    mret (createdResponse notebook backendData).

Definition createNotebookBlocking (req : Request) (env : CreateEnv) (tbl : list JsVal)
  : Response * list JsVal :=
  if String.eqb (method req) "OPTIONS" then (newResponse JNull None corsHeaders, tbl)
  else respond "Failed to create notebook" (createNotebookBlockingBody req env) tbl.

End Edge.

(** ** The legacy AI response format, typed *)

(** The interface [N8nAiResponseContent] and the JSON value of a document of
    that type, followed by what the flattening of such a document is meant
    to be: one segment per output item, and a citation id that advances
    once per output item carrying at least one citation. *)
Module LegacyFormat.
Import LegacyNormalizer.

Record ChunkCitation : Type := mkChunkCitation {
  cc_chunk_index : Z;
  cc_chunk_source_id : string;
  cc_chunk_lines_from : Z;
  cc_chunk_lines_to : Z
}.

(** [out_citations = None] is an output item without the optional
    [citations] field. *)
Record OutputItem : Type := mkOutputItem {
  out_text : string;
  out_citations : option (list ChunkCitation)
}.

Definition encodeCitation (c : ChunkCitation) : JsVal :=
  JObj [ ("chunk_index", JNum (cc_chunk_index c));
         ("chunk_source_id", JStr (cc_chunk_source_id c));
         ("chunk_lines_from", JNum (cc_chunk_lines_from c));
         ("chunk_lines_to", JNum (cc_chunk_lines_to c)) ].

Definition encodeOutputItem (it : OutputItem) : JsVal :=
  JObj (("text", JStr (out_text it))
        :: match out_citations it with
           | Some cs => [("citations", JArr (encodeCitation <$> cs))]
           | None => []
           end).

Definition encodeContent (items : list OutputItem) : JsVal :=
  JObj [("output", JArr (encodeOutputItem <$> items))].

Definition citationsOf (it : OutputItem) : list ChunkCitation :=
  default [] (out_citations it).

(** The output item carries at least one citation. *)
Definition cited (it : OutputItem) : bool :=
  match citationsOf it with [] => false | _ :: _ => true end.

(** The citation id of the output item at position [i]: one more than the
    number of cited items before it. *)
Definition countCited (items : list OutputItem) : Z :=
  Z.of_nat (length (filter (fun it => cited it = true) items)).

Definition itemCitationId (items : list OutputItem) (i : nat) : Z :=
  1 + countCited (take i items).

Definition segmentOf (id : Z) (it : OutputItem) : MessageSegment :=
  {| text := JStr (out_text it);
     seg_citation_id := if cited it then Some id else None |}.

Definition citationOf (sourceMap : gmap string JsVal) (id : Z) (c : ChunkCitation)
  : Citation :=
  let sourceInfo := default JUndefined (sourceMap !! cc_chunk_source_id c) in
  {| citation_id := id;
     source_id := JStr (cc_chunk_source_id c);
     source_title := or_else (get_opt sourceInfo "title") (JStr "Unknown Source");
     source_type := or_else (get_opt sourceInfo "type") (JStr "pdf");
     chunk_lines_from := JNum (cc_chunk_lines_from c);
     chunk_lines_to := JNum (cc_chunk_lines_to c);
     chunk_index := JNum (cc_chunk_index c);
     excerpt := JStr ("Lines " +:+ pretty (cc_chunk_lines_from c) +:+ "-"
                      +:+ pretty (cc_chunk_lines_to c)) |}.

(** Segments and citations of the items, the first of which gets the id
    [id]. *)
Fixpoint segmentsFrom (id : Z) (items : list OutputItem) : list MessageSegment :=
  match items with
  | [] => []
  | it :: rest =>
      segmentOf id it :: segmentsFrom (if cited it then id + 1 else id) rest
  end.

Fixpoint citationsFrom (sourceMap : gmap string JsVal) (id : Z) (items : list OutputItem)
  : list Citation :=
  match items with
  | [] => []
  | it :: rest =>
      ((citationOf sourceMap id <$> citationsOf it)
         ++ citationsFrom sourceMap (if cited it then id + 1 else id) rest)%list
  end.

(** [v.output] when it is an array. *)
Definition outputArray (v : JsVal) : option (list JsVal) :=
  match get v "output" with
  | Return (JArr items) => Some items
  | _ => None
  end.

(** The shapes of [item.message] the normalizer recognizes: an object with
    [type] and [content], or a string. *)
Definition recognized (msg : JsVal) : bool :=
  match msg with
  | JObj fields => has_key "type" fields && has_key "content" fields
  | JStr _ => true
  | _ => false
  end.

End LegacyFormat.

(** ** The notebooks hook: [useNotebooks] *)

Module Notebooks.
Import Retry.

(** A [notebooks] row, as far as the hook reads it. *)
Record Notebook : Type := mkNotebook {
  nb_id : string;
  nb_name : string;
  nb_selected_books : option (list string);
  nb_selected_genres : option (list string)
}.

(** [{ ...notebook, sources: [{ count: totalCount }] }] *)
Record NotebookWithCount : Type := mkNotebookWithCount {
  notebook : Notebook;
  sources_count : nat
}.

(** The error thrown in place of one whose message mentions [fetch]. *)
Definition connectionError : QueryError :=
  mkQueryError
    (Some "Unable to connect to Supabase. Please check your internet connection and Supabase configuration.").

(** The callback of the [map] over the notebooks.  [genreBooks] is the
    [data] of the select of the books of the notebook's genres ([None] when
    that select fails); the select is only made when genres are selected. *)
Definition withCount (genreBooks : Notebook -> option (list string)) (n : Notebook)
  : NotebookWithCount :=
  let selectedBooks := default [] (nb_selected_books n) in
  let selectedGenres := default [] (nb_selected_genres n) in
  let genreBookCount :=
    if (0 <? length selectedGenres)%nat then length (default [] (genreBooks n)) else 0%nat in
  {| notebook := n; sources_count := (length selectedBooks + genreBookCount)%nat |}.

(** The [queryFn] of the notebooks query: [inl] is the error it throws. *)
Definition queryFn (user : option string) (notebooksData : option (list Notebook))
    (notebooksError : option QueryError) (genreBooks : Notebook -> option (list string))
  : QueryError + list NotebookWithCount :=
  match user with
  | None => inr []
  | Some _ =>
      match notebooksError with
      | Some e => if messageIncludes e "fetch" then inl connectionError else inl e
      | None => inr (withCount genreBooks <$> default [] notebooksData)
      end
  end.

End Notebooks.

(** ** Mutations that go through the edge functions *)

Module Client.
Import RowNormalizer Edge.

(** [supabase.functions.invoke(name, { body })]: the function is called
    with the body as JSON; a response outside 200..299 becomes an [error],
    any other gives the parsed body as [data]. *)
Definition invoke {T} (handler : Request -> T -> Response * T) (body : JsVal) (tbl : T)
  : StoreResult JsVal * T :=
  let '(resp, tbl') := handler (mkRequest "POST" (Return body)) tbl in
  if (200 <=? status resp) && (status resp <? 300)
  then (mkStoreResult (Edge.body resp) None, tbl')
  else (mkStoreResult JNull (Some "Edge Function returned a non-2xx status code"), tbl').

(** [mutationFn] of [createNotebook], against the create-notebook function
    [handler]; [user] is the id of the signed-in user, if any. *)
Definition createNotebookMutation (handler : Request -> list JsVal -> Response * list JsVal)
    (user : option string) (title : string) (tbl : list JsVal) : Exc JsVal * list JsVal :=
  match user with
  | None => (Throw "User not authenticated", tbl)
  | Some uid =>
      let '(res, tbl') :=
        invoke handler
          (JObj [ ("name", or_else (JStr title) (JStr "Untitled Notebook"));
                  ("user_id", JStr uid) ]) tbl in
      match error res with
      | Some e => (Throw e, tbl')
      | None => (get (data res) "notebook", tbl')
      end
  end.

(** [mutationFn] of [sendMessage] in the variant that calls the
    send-chat-message function. *)
Definition sendMessageMutation (env : SendEnv) (user : option string)
    (notebookId content : string) (tbl : list ChatRow) : Exc JsVal * list ChatRow :=
  match user with
  | None => (Throw "User not authenticated", tbl)
  | Some _ =>
      let '(res, tbl') :=
        invoke (fun req => sendChatMessage req env)
          (JObj [("notebookId", JStr notebookId); ("message", JStr content)]) tbl in
      match error res with
      | Some e => (Throw ("Failed to send message: " +:+ e), tbl')
      | None => (Return (data res), tbl')
      end
  end.

End Client.

(** ** The direct-write variant of the chat hook *)

Module DirectWrite.
Import RowNormalizer.

(** The canned reply of the variant. *)
Definition aiResponse : string :=
  "I understand your question about the books in this notebook. However, the AI integration needs to be configured to provide proper responses based on your book content.".

(** [.update({ assistant_response: response }).eq('id', id)] *)
Definition updateResponse (id : string) (response : string) (tbl : list ChatRow)
  : list ChatRow :=
  (fun r =>
     if strictEqStr (row_id r) id
     then {| row_id := row_id r; notebook_id := notebook_id r;
             user_message := user_message r; assistant_response := JStr response;
             row_citations := row_citations r; timestamp := timestamp r |}
     else r) <$> tbl.

(** [mutationFn] of [sendMessage]: the row is inserted with an empty
    response, then updated with the reply; the inserted row is returned.
    [insertError] and [updateError] are the errors of the two store calls,
    [newId] and [newTimestamp] what the store generates. *)
Definition sendMessage (user : option string) (insertError updateError : option string)
    (newId newTimestamp : string) (notebookId content : string) (tbl : list ChatRow)
  : Exc ChatRow * list ChatRow :=
  match user with
  | None => (Throw "User not authenticated", tbl)
  | Some _ =>
      match insertError with
      | Some m => (Throw ("Failed to save user message: " +:+ m), tbl)
      | None =>
          let userMessage :=
            {| row_id := JStr newId; notebook_id := JStr notebookId;
               user_message := JStr content; assistant_response := JStr "";
               row_citations := JNull; timestamp := JStr newTimestamp |} in
          let tbl1 := (tbl ++ [userMessage])%list in
          match updateError with
          | Some m => (Throw ("Failed to update with AI response: " +:+ m), tbl1)
          | None => (Return userMessage, updateResponse newId aiResponse tbl1)
          end
      end
  end.

(** The entries of this variant's cache are the arrays that
    [transformChatMessage] returns, and an array has no [id]: reading
    [entry.id] gives [undefined]. *)
Definition entryId (entry : list (EnhancedChatMessage string)) : JsVal := JUndefined.

(** [a === b] for values that are not objects. *)
Definition strictEqPrimitive (a b : JsVal) : bool :=
  match a, b with
  | JUndefined, JUndefined | JNull, JNull => true
  | JBool x, JBool y => Bool.eqb x y
  | JNum x, JNum y => x =? y
  | JStr x, JStr y => String.eqb x y
  | _, _ => false
  end.

(** The [queryFn] of the variant: [data.map(item => transformChatMessage(item, bookMap))],
    one array per row. *)
Definition queryFn (notebookId : option string) (selectError : option string)
    (booksData : option (list ChatSync.Book)) (tbl : list ChatRow)
  : Exc (list (list (EnhancedChatMessage string))) :=
  match notebookId with
  | None => mret []
  | Some nb =>
      if String.eqb nb "" then mret []
      else
        match selectError with
        | Some e => Throw e
        | None =>
            let data := filter (fun r => ChatSync.eqNotebook nb r = true) tbl in
            let bookMap := ChatSync.makeBookMap booksData in
            mret ((fun item => transformChatMessage item bookMap) <$> data)
        end
  end.

(** The updater of the variant's realtime handler. *)
Definition mergeNewMessage (newMessage : list (EnhancedChatMessage string))
    (cached : option (list (list (EnhancedChatMessage string))))
  : list (list (EnhancedChatMessage string)) :=
  let oldMessages := default [] cached in
  let messageExists :=
    existsb (fun msg => strictEqPrimitive (entryId msg) (entryId newMessage)) oldMessages in
  if messageExists then oldMessages else (oldMessages ++ [newMessage])%list.

End DirectWrite.

(** ** Cross references of structured content *)

Module LegacyInvariant.
Import LegacyNormalizer.

(** Segments and citations refer to one another: every id on a segment is
    at least 1, at most the number of segments, and the id of some citation;
    every citation carries the id of some segment. *)
Definition linked (segs : list MessageSegment) (cits : list Citation) : Prop :=
  (forall seg k, seg ∈ segs -> seg_citation_id seg = Some k ->
      1 <= k <= Z.of_nat (length segs) /\ exists c, c ∈ cits /\ citation_id c = k)
  /\ (forall c, c ∈ cits ->
        exists seg, seg ∈ segs /\ seg_citation_id seg = Some (citation_id c)).

(** The same for a loop state, whose counter is above every id in use. *)
Definition linkedAcc (acc : Acc) : Prop :=
  1 <= citationIdCounter acc <= 1 + Z.of_nat (length (segments acc))
  /\ (forall seg k, seg ∈ segments acc -> seg_citation_id seg = Some k ->
        1 <= k < citationIdCounter acc
        /\ exists c, c ∈ citations acc /\ citation_id c = k)
  /\ (forall c, c ∈ citations acc ->
        exists seg, seg ∈ segments acc /\ seg_citation_id seg = Some (citation_id c)).

End LegacyInvariant.

(** ** Sample data *)

Module Samples.
Import RowNormalizer.

(** The row [{id: "r1", user_message: "Hi", assistant_response: "", citations: null}]. *)
Definition r1 : ChatRow :=
  {| row_id := JStr "r1"; notebook_id := JStr "n1"; user_message := JStr "Hi";
     assistant_response := JStr ""; row_citations := JNull;
     timestamp := JStr "2025-01-01T00:00:00Z" |}.

Definition citation_b1 : JsVal :=
  JObj [ ("source_id", JStr "b1"); ("source_title", JStr "Book");
         ("chunk_lines_from", JNum 1); ("chunk_lines_to", JNum 3) ].

(** A citation with neither title nor type. *)
Definition citation_bare : JsVal := JObj [ ("source_id", JStr "b9") ].

(** The row [{id: "r2", user_message: "Q", assistant_response: "A", citations: [...]}]. *)
Definition r2 : ChatRow :=
  {| row_id := JStr "r2"; notebook_id := JStr "n1"; user_message := JStr "Q";
     assistant_response := JStr "A";
     row_citations := JArr [citation_b1; citation_bare];
     timestamp := JStr "2025-01-01T00:00:01Z" |}.

Definition sampleItems : list LegacyFormat.OutputItem :=
  [ LegacyFormat.mkOutputItem "A"
      (Some [ LegacyFormat.mkChunkCitation 0 "b1" 1 3;
              LegacyFormat.mkChunkCitation 1 "b2" 4 9 ]);
    LegacyFormat.mkOutputItem "B" None;
    LegacyFormat.mkOutputItem "C" (Some [ LegacyFormat.mkChunkCitation 2 "b1" 10 12 ]) ].

Definition dquote : string := String (Ascii.ascii_of_nat 34) EmptyString.

(** JSON text of a value whose strings need no escaping. *)
Fixpoint stringify (v : JsVal) : string :=
  match v with
  | JUndefined | JNull => "null"
  | JBool true => "true"
  | JBool false => "false"
  | JNum n => pretty n
  | JStr s => dquote +:+ s +:+ dquote
  | JArr items =>
      "[" +:+ join ","
                ((fix each (l : list JsVal) : list string :=
                    match l with
                    | [] => []
                    | x :: l' => stringify x :: each l'
                    end) items) +:+ "]"
  | JObj fields =>
      "{" +:+ join ","
                ((fix each (l : list (string * JsVal)) : list string :=
                    match l with
                    | [] => []
                    | (k, x) :: l' =>
                        (dquote +:+ k +:+ dquote +:+ ":" +:+ stringify x) :: each l'
                    end) fields) +:+ "}"
  end.

Definition sampleDocument : string :=
  Eval vm_compute in stringify (LegacyFormat.encodeContent sampleItems).

(** A runtime that parses the sample document and [null] and nothing else,
    and converts no string to a positive number. *)
Definition sampleRuntime : Runtime :=
  {| JSON_parse s :=
       if String.eqb s sampleDocument then Return (LegacyFormat.encodeContent sampleItems)
       else if String.eqb s "null" then Return JNull
       else Throw "SyntaxError: unexpected token";
     StringToNumber_gt0 s := false |}.

Definition sampleSourceMap : gmap string JsVal :=
  {[ "b1" := JObj [("title", JStr "Book One"); ("type", JStr "book")] ]}.

(** A legacy AI turn whose content is the sample document. *)
Definition legacyAi (contentStr : string) : LegacyNormalizer.HistoryItem :=
  {| LegacyNormalizer.item_id := JNum 7;
     LegacyNormalizer.item_session_id := JStr "s1";
     LegacyNormalizer.item_message :=
       JObj [("type", JStr "ai"); ("content", JStr contentStr)] |}.

Definition jwtExpired : Retry.QueryError := Retry.mkQueryError (Some "JWT expired").

(** A read that fails with the same error at every attempt. *)
Definition alwaysFailing (e : Retry.QueryError) : nat -> option Retry.QueryError :=
  fun _ => Some e.

(** A pre-flight request; it has no body to parse. *)
Definition optionsRequest : Edge.Request :=
  Edge.mkRequest "OPTIONS" (Throw "SyntaxError: unexpected end of JSON input").

Definition chatRequest : Edge.Request :=
  Edge.mkRequest "POST" (Return (JObj [("notebookId", JStr "n1"); ("message", JStr "Q")])).

Definition sampleNotebook : Edge.NotebookRow :=
  Edge.mkNotebookRow (Some ["b1"]) (Some ["science"]) "u1".

Definition backendDown : Edge.FetchResponse :=
  Edge.mkFetchResponse false 503 "Service Unavailable" (Throw "SyntaxError: not JSON").

(** The notebook is found and the backend answers 503. *)
Definition backendDownEnv : Edge.SendEnv :=
  {| Edge.notebookResult := Edge.mkStoreResult (Some sampleNotebook) None;
     Edge.genreBooksResult := Edge.mkStoreResult (Some ["b1"; "b2"]) None;
     Edge.fetchResult := Return backendDown;
     Edge.insertError := None;
     Edge.insertedId := "r3";
     Edge.insertedTimestamp := "2025-01-01T00:00:02Z" |}.

Definition createEnv : Edge.CreateEnv :=
  {| Edge.create_fetchResult := Return backendDown;
     Edge.create_insertError := None;
     Edge.create_insertedId := "n2" |}.

(** A document whose second output item is [null], and a runtime that
    parses it and nothing else. *)
Definition brokenOutput : JsVal :=
  JObj [("output", JArr [JObj [("text", JStr "A")]; JNull])].

Definition brokenDocument : string := Eval vm_compute in stringify brokenOutput.

Definition brokenRuntime : Runtime :=
  {| JSON_parse s :=
       if String.eqb s brokenDocument then Return brokenOutput
       else Throw "SyntaxError: unexpected token";
     StringToNumber_gt0 s := false |}.

(** A read that fails twice on the network and then succeeds. *)
Definition flakyRead : nat -> option Retry.QueryError :=
  fun k => if (k <? 2)%nat then Some (Retry.mkQueryError (Some "network down")) else None.

(** The backend answers with a reply and no citations. *)
Definition backendUp : Edge.FetchResponse :=
  Edge.mkFetchResponse true 200 "" (Return (JObj [("response", JStr "A")])).

(** The notebook is found, the backend answers and the insert succeeds. *)
Definition backendUpEnv : Edge.SendEnv :=
  {| Edge.notebookResult := Edge.mkStoreResult (Some sampleNotebook) None;
     Edge.genreBooksResult := Edge.mkStoreResult (Some ["b1"; "b2"]) None;
     Edge.fetchResult := Return backendUp;
     Edge.insertError := None;
     Edge.insertedId := "r4";
     Edge.insertedTimestamp := "2025-01-01T00:00:03Z" |}.

Definition createRequest : Edge.Request :=
  Edge.mkRequest "POST" (Return (JObj [("name", JStr "Physics"); ("user_id", JStr "u1")])).

Definition createUpEnv : Edge.CreateEnv :=
  {| Edge.create_fetchResult := Return backendUp;
     Edge.create_insertError := None;
     Edge.create_insertedId := "n2" |}.

(** An answered row without citations. *)
Definition r3 : RowNormalizer.ChatRow :=
  {| RowNormalizer.row_id := JStr "r3"; RowNormalizer.notebook_id := JStr "n1";
     RowNormalizer.user_message := JStr "Why?";
     RowNormalizer.assistant_response := JStr "Because.";
     RowNormalizer.row_citations := JArr [];
     RowNormalizer.timestamp := JStr "2025-01-01T00:00:02Z" |}.

(** A client whose cache of notebook "n1" holds the human turn of [r2]. *)
Definition sampleState : ChatSync.State :=
  {| ChatSync.table := [r1; r2];
     ChatSync.cache :=
       {[ "n1" := ChatSync.mkQueryState (Some [RowNormalizer.userMessage r2]) false ]} |}.

End Samples.

(** * Properties *)

(** ** The row normalizer *)

Module RowFacts.
Import RowNormalizer Samples.

Lemma transformCitation_returns (c : JsVal) (i : nat) :
  nullish c = false ->
  exists cit, transformCitation c i = Return cit /\ citation_id cit = Z.of_nat i + 1.
Proof.
  intros Hc.
  destruct c; simpl in Hc; try discriminate; eexists; (split; [reflexivity|]); reflexivity.
Qed.

Lemma mapi_exc_transformCitation (cs : list JsVal) :
  Forall (fun c => nullish c = false) cs ->
  forall k : nat, exists cits,
    mapi_exc transformCitation cs k = Return cits
    /\ citation_id <$> cits = seqZ (Z.of_nat k + 1) (Z.of_nat (length cs))
    /\ (forall (i : nat) (c : JsVal), cs !! i = Some c ->
          exists cit, cits !! i = Some cit /\ transformCitation c (k + i) = Return cit).
Proof.
  induction 1 as [|c cs Hc _ IH]; intros k.
  - exists []. split; [done|]. split; [done|].
    intros i c Hi. by rewrite lookup_nil in Hi.
  - destruct (transformCitation_returns c k Hc) as (cit & Hcit & Hid).
    destruct (IH (S k)) as (cits & Hcits & Hids & Hnth).
    exists (cit :: cits). split; [|split].
    + simpl. rewrite Hcit. simpl. rewrite Hcits. reflexivity.
    + rewrite fmap_cons, Hid, Hids.
      rewrite (seqZ_cons (Z.of_nat k + 1)) by (simpl; lia).
      f_equal. f_equal; simpl; lia.
    + intros [|i] c' Hi; simpl in Hi.
      * injection Hi as <-. exists cit. split; [done|]. by rewrite Nat.add_0_r.
      * destruct (Hnth i c' Hi) as (cit' & ? & ?). exists cit'. split; [done|].
        by replace (k + S i)%nat with (S k + i)%nat by lia.
Qed.

(** A row is empty-handed when its [assistant_response] is the empty string
    or absent. *)
Lemma transformDbRowToChatMessages_empty_response (item : ChatRow)
    (bookMap : gmap string JsVal) :
  assistant_response item = JStr "" \/ assistant_response item = JNull
    \/ assistant_response item = JUndefined ->
  transformDbRowToChatMessages item bookMap = Return [userMessage item]
  /\ msg_id (userMessage item) = toString (row_id item) +:+ "-user"
  /\ type (message (userMessage item)) = human.
Proof.
  intros Hempty. unfold transformDbRowToChatMessages.
  assert (truthy (assistant_response item) = false) as ->
    by (destruct Hempty as [-> | [-> | ->]]; reflexivity).
  done.
Qed.

(** C1, at the failing input: for the row [r1], whose [assistant_response]
    is empty, [transformChatMessage] emits two messages, the human one with
    id "r1-user" and an assistant one with id "r1-assistant" whose content is
    the placeholder "No response yet"; [transformDbRowToChatMessages] emits
    the human message alone on the same row. *)
Theorem transformChatMessage_emits_placeholder_assistant :
  transformChatMessage r1 ∅
    = [ mkChatMessage "r1-user" (JStr "n1") (simpleMessage human (Plain (JStr "Hi")));
        mkChatMessage "r1-assistant" (JStr "n1")
          (simpleMessage ai (Plain (JStr "No response yet"))) ]
  /\ transformDbRowToChatMessages r1 ∅
    = Return [ mkChatMessage "r1-user" (JStr "n1") (simpleMessage human (Plain (JStr "Hi"))) ].
Proof. split; reflexivity. Qed.

(** C2: for a row with a non-empty [assistant_response] and a non-empty
    list of N citations (none of them [null] or [undefined]), the normalizer
    returns two messages.  The first is the human message: id
    "<rowId>-user", type human, the user message as content.  The second is
    the assistant message: id "<rowId>-assistant", type ai, and as content
    the structured content with exactly one segment, holding the whole
    response and tagged with citation id 1, and a citations list of length N
    whose [citation_id]s are 1, 2, ..., N, the i-th entry being built from
    the i-th input citation. *)
Theorem structured_content_of_cited_row (item : ChatRow) (bookMap : gmap string JsVal)
    (cs : list JsVal) :
  truthy (assistant_response item) = true ->
  row_citations item = JArr cs ->
  cs <> [] ->
  Forall (fun c => nullish c = false) cs ->
  exists (u a : EnhancedChatMessage string) (cits : list Citation),
    transformDbRowToChatMessages item bookMap = Return [u; a]
    /\ msg_id u = toString (row_id item) +:+ "-user"
    /\ session_id u = notebook_id item
    /\ type (message u) = human
    /\ content (message u) = Plain (user_message item)
    /\ msg_id a = toString (row_id item) +:+ "-assistant"
    /\ session_id a = notebook_id item
    /\ type (message a) = ai
    /\ content (message a)
       = Structured [ {| text := assistant_response item; seg_citation_id := Some 1 |} ]
                    cits
    /\ length cits = length cs
    /\ citation_id <$> cits = seqZ 1 (Z.of_nat (length cs))
    /\ (forall (i : nat) (c : JsVal), cs !! i = Some c ->
          exists cit, cits !! i = Some cit /\ transformCitation c i = Return cit).
Proof.
  intros Hresp Hcits Hne Hok.
  destruct (mapi_exc_transformCitation cs Hok 0) as (cits & Hmap & Hids & Hnth).
  assert (length cits = length cs) as Hlen.
  { rewrite <- (length_fmap citation_id cits), Hids, length_seqZ. lia. }
  exists (userMessage item),
    (assistantMessage item
       (Structured [ {| text := assistant_response item; seg_citation_id := Some 1 |} ]
                   cits)),
    cits.
  split; [|repeat (split; [reflexivity || assumption|]); intros i c Hi; exact (Hnth i c Hi)].
  unfold transformDbRowToChatMessages, messageContent.
  rewrite Hresp, Hcits.
  destruct cs as [|c cs']; [done|].
  replace (0 <? Z.of_nat (length (c :: cs'))) with true
    by (symmetry; apply Z.ltb_lt; simpl; lia).
  rewrite Hmap. simpl.
  replace (0 <? Z.of_nat (length cits)) with true
    by (symmetry; apply Z.ltb_lt; rewrite Hlen; simpl; lia).
  reflexivity.
Qed.

Lemma structured_content_of_cited_row_witness :
  exists (u a : EnhancedChatMessage string) (cits : list Citation),
    transformDbRowToChatMessages r2 ∅ = Return [u; a]
    /\ msg_id u = "r2-user"
    /\ session_id u = JStr "n1"
    /\ type (message u) = human
    /\ content (message u) = Plain (JStr "Q")
    /\ msg_id a = "r2-assistant"
    /\ session_id a = JStr "n1"
    /\ type (message a) = ai
    /\ content (message a)
       = Structured [ {| text := JStr "A"; seg_citation_id := Some 1 |} ] cits
    /\ length cits = 2%nat
    /\ citation_id <$> cits = [1; 2]
    /\ (forall (i : nat) (c : JsVal), [citation_b1; citation_bare] !! i = Some c ->
          exists cit, cits !! i = Some cit /\ transformCitation c i = Return cit).
Proof.
  apply (structured_content_of_cited_row r2 ∅ [citation_b1; citation_bare]).
  - reflexivity.
  - reflexivity.
  - discriminate.
  - repeat constructor.
Defined.

End RowFacts.

(** ** The legacy normalizer *)

Module LegacyFacts.
Import LegacyNormalizer LegacyFormat Samples.

Lemma countCited_cons (x : OutputItem) (items : list OutputItem) :
  countCited (x :: items) = (if cited x then 1 else 0) + countCited items.
Proof.
  unfold countCited. rewrite filter_cons.
  destruct (cited x) eqn:Hx.
  - rewrite decide_True by done. simpl length. lia.
  - rewrite decide_False by done. lia.
Qed.

Lemma citationEntry_encode (sourceMap : gmap string JsVal) (k : Z) (c : ChunkCitation) :
  citationEntry sourceMap k (encodeCitation c) = Return (citationOf sourceMap k c).
Proof. reflexivity. Qed.

Lemma pushCitations_encode (sourceMap : gmap string JsVal) (k : Z)
    (cs : list ChunkCitation) (acc : list Citation) :
  pushCitations sourceMap k (encodeCitation <$> cs) acc
    = Return (acc ++ (citationOf sourceMap k <$> cs))%list.
Proof.
  revert acc. induction cs as [|c cs IH]; intros acc.
  - simpl. by rewrite app_nil_r.
  - rewrite fmap_cons. cbn [pushCitations]. rewrite citationEntry_encode.
    cbn [mbind Exc_bind]. rewrite IH, <- app_assoc. reflexivity.
Qed.

Lemma segmentsFrom_length (k : Z) (items : list OutputItem) :
  length (segmentsFrom k items) = length items.
Proof. revert k. induction items as [|it rest IH]; intros k; simpl; [done|]. by rewrite IH. Qed.

Lemma segmentsFrom_lookup (items : list OutputItem) :
  forall (k : Z) (i : nat) (it : OutputItem),
    items !! i = Some it ->
    segmentsFrom k items !! i = Some (segmentOf (k + countCited (take i items)) it).
Proof.
  induction items as [|x rest IH]; intros k i it Hi; [by rewrite lookup_nil in Hi|].
  destruct i as [|i]; simpl in Hi.
  - injection Hi as ->. simpl. unfold countCited. simpl. by rewrite Z.add_0_r.
  - cbn [segmentsFrom lookup list_lookup]. rewrite (IH _ i it Hi).
    do 2 f_equal. rewrite firstn_cons, countCited_cons.
    destruct (cited x); lia.
Qed.

Lemma citationsFrom_concat (sourceMap : gmap string JsVal) (items : list OutputItem) :
  forall k : Z,
    citationsFrom sourceMap k items
      = concat (imap (fun i it =>
                        citationOf sourceMap (k + countCited (take i items)) <$> citationsOf it)
                     items).
Proof.
  induction items as [|x rest IH]; intros k; [done|].
  cbn [citationsFrom]. rewrite imap_cons, concat_cons. f_equal.
  - simpl. unfold countCited. simpl. by rewrite Z.add_0_r.
  - rewrite IH. f_equal. apply imap_ext. intros i it _. unfold compose.
    do 2 f_equal. rewrite firstn_cons, countCited_cons.
    destruct (cited x); lia.
Qed.

Section WithRuntime.
Context {runtime : Runtime}.

Lemma hasCitations_encode (it : OutputItem) :
  hasCitations (encodeOutputItem it) = Return (cited it).
Proof.
  destruct it as [t [[|c cs]|]]; reflexivity.
Qed.

Lemma processOutputItem_encode (sourceMap : gmap string JsVal) (acc : Acc) (it : OutputItem) :
  processOutputItem sourceMap acc (encodeOutputItem it)
    = Return (mkAcc (segments acc ++ [segmentOf (citationIdCounter acc) it])
                    (citations acc
                       ++ (citationOf sourceMap (citationIdCounter acc) <$> citationsOf it))
                    (if cited it then citationIdCounter acc + 1 else citationIdCounter acc)).
Proof.
  unfold processOutputItem.
  replace (get (encodeOutputItem it) "text") with (Return (JStr (out_text it)))
    by reflexivity.
  cbn [mbind Exc_bind]. rewrite hasCitations_encode. cbn [mbind Exc_bind].
  destruct it as [t [[|c cs]|]]; cbn [cited citationsOf out_citations default].
  - rewrite app_nil_r. reflexivity.
  - replace (get (encodeOutputItem (mkOutputItem t (Some (c :: cs)))) "citations")
      with (Return (JArr (encodeCitation <$> (c :: cs)))) by reflexivity.
    cbn [mbind Exc_bind]. rewrite pushCitations_encode. reflexivity.
  - rewrite app_nil_r. reflexivity.
Qed.

Lemma forEachOutput_encode (sourceMap : gmap string JsVal) (items : list OutputItem) :
  forall acc : Acc,
    forEachOutput sourceMap (encodeOutputItem <$> items) acc
      = Return (mkAcc (segments acc ++ segmentsFrom (citationIdCounter acc) items)
                      (citations acc ++ citationsFrom sourceMap (citationIdCounter acc) items)
                      (citationIdCounter acc + countCited items)).
Proof.
  induction items as [|it rest IH]; intros acc.
  - simpl. unfold countCited. simpl. rewrite !app_nil_r, Z.add_0_r. by destruct acc.
  - rewrite fmap_cons. cbn [forEachOutput]. rewrite processOutputItem_encode.
    cbn [mbind Exc_bind]. rewrite IH. cbn [segments citations citationIdCounter].
    rewrite <- !app_assoc. cbn [segmentsFrom citationsFrom app].
    rewrite countCited_cons. do 2 f_equal.
    destruct (cited it); lia.
Qed.

Lemma countCited_take_S (items : list OutputItem) (i : nat) (it : OutputItem) :
  items !! i = Some it ->
  itemCitationId items (S i) = itemCitationId items i + (if cited it then 1 else 0).
Proof.
  intros Hi. unfold itemCitationId, countCited.
  rewrite (take_S_r items i it Hi), filter_app, length_app, filter_cons, filter_nil.
  destruct (cited it) eqn:Hit.
  - rewrite decide_True by done. simpl length. lia.
  - rewrite decide_False by done. simpl length. lia.
Qed.

Lemma parseAiContent_encode (sourceMap : gmap string JsVal) (contentStr : string)
    (items : list OutputItem) :
  JSON_parse contentStr = Return (encodeContent items) ->
  parseAiContent sourceMap contentStr
    = Return (Structured (segmentsFrom 1 items) (citationsFrom sourceMap 1 items)).
Proof.
  intros Hparse. unfold parseAiContent. rewrite Hparse. cbn [mbind Exc_bind].
  replace (get (encodeContent items) "output")
    with (Return (JArr (encodeOutputItem <$> items))) by reflexivity.
  cbn [mbind Exc_bind]. rewrite forEachOutput_encode. reflexivity.
Qed.

Lemma transformedMessage_ai_string (fields : list (string * JsVal)) (contentStr : string)
    (sourceMap : gmap string JsVal) :
  assoc "type" fields = Some (JStr "ai") ->
  assoc "content" fields = Some (JStr contentStr) ->
  transformedMessage (JObj fields) sourceMap
    = (c ← catch (parseAiContent sourceMap contentStr)
                 (fun _ => mret (Plain (JStr contentStr)));
       mret (mkMessage ai c
               (default JUndefined (assoc "additional_kwargs" fields))
               (default JUndefined (assoc "response_metadata" fields))
               (default JUndefined (assoc "tool_calls" fields))
               (default JUndefined (assoc "invalid_tool_calls" fields)))).
Proof.
  intros Hty Hct. unfold transformedMessage, has_key, get.
  rewrite Hty, Hct. reflexivity.
Qed.

(** C3: when the content of a legacy AI message parses to a document with
    an [output] array, the normalizer returns an AI message with structured
    content in which every output item is exactly one segment (same order,
    same text); the citation id starts at 1 and advances by one after each
    output item that carries at least one citation, and by nothing after an
    item without citations; a cited item's segment and all of its citations
    carry the id of that item, an uncited item's segment carries none. *)
Theorem legacy_output_flattening (item : HistoryItem) (sourceMap : gmap string JsVal)
    (fields : list (string * JsVal)) (contentStr : string) (items : list OutputItem) :
  item_message item = JObj fields ->
  assoc "type" fields = Some (JStr "ai") ->
  assoc "content" fields = Some (JStr contentStr) ->
  JSON_parse contentStr = Return (encodeContent items) ->
  exists (m : EnhancedChatMessage JsVal) (segs : list MessageSegment) (cits : list Citation),
    transformMessage item sourceMap = Return m
    /\ type (message m) = ai
    /\ content (message m) = Structured segs cits
    /\ length segs = length items
    /\ (forall (i : nat) (it : OutputItem), items !! i = Some it ->
          segs !! i = Some {| text := JStr (out_text it);
                              seg_citation_id :=
                                if cited it then Some (itemCitationId items i) else None |}
          /\ itemCitationId items (S i)
               = itemCitationId items i + (if cited it then 1 else 0))
    /\ itemCitationId items 0 = 1
    /\ cits = concat (imap (fun i it =>
                              citationOf sourceMap (itemCitationId items i) <$> citationsOf it)
                           items).
Proof.
  intros Hmsg Hty Hct Hparse.
  eexists _, (segmentsFrom 1 items), (citationsFrom sourceMap 1 items).
  split; [|split; [|split; [|split; [|split; [|split]]]]].
  - unfold transformMessage. rewrite Hmsg.
    rewrite (transformedMessage_ai_string fields contentStr sourceMap Hty Hct).
    rewrite (parseAiContent_encode sourceMap contentStr items Hparse). reflexivity.
  - reflexivity.
  - reflexivity.
  - apply segmentsFrom_length.
  - intros i it Hi. split.
    + rewrite (segmentsFrom_lookup items 1 i it Hi). reflexivity.
    + by apply countCited_take_S.
  - reflexivity.
  - apply citationsFrom_concat.
Qed.

Lemma transformedMessage_returns (msg : JsVal) (sourceMap : gmap string JsVal) :
  exists m, transformedMessage msg sourceMap = Return m.
Proof.
  destruct msg as [| | | | |items|fields]; try (eexists; reflexivity).
  unfold transformedMessage.
  destruct (has_key "type" fields && has_key "content" fields); [|eexists; reflexivity].
  unfold get. cbn [mbind Exc_bind].
  destruct (default JUndefined (assoc "content" fields)); try (eexists; reflexivity).
  destruct (strictEqStr _ "ai"); [|eexists; reflexivity].
  destruct (parseAiContent sourceMap s); eexists; reflexivity.
Qed.

Lemma parseAiContent_without_output (sourceMap : gmap string JsVal) (contentStr : string) :
  (forall v, JSON_parse contentStr = Return v -> outputArray v = None) ->
  catch (parseAiContent sourceMap contentStr) (fun _ => mret (Plain (JStr contentStr)))
    = Return (Plain (JStr contentStr)).
Proof.
  intros Hno. unfold parseAiContent.
  destruct (JSON_parse contentStr) as [v|e]; [|reflexivity].
  specialize (Hno v eq_refl). unfold outputArray in Hno. cbn [mbind Exc_bind].
  destruct (get v "output") as [o|e]; [|reflexivity].
  destruct o; try reflexivity. discriminate.
Qed.

Lemma transformedMessage_unrecognized (msg : JsVal) (sourceMap : gmap string JsVal) :
  recognized msg = false ->
  transformedMessage msg sourceMap
    = Return (simpleMessage human (Plain (JStr "Unable to parse message"))).
Proof.
  destruct msg; simpl; intros Hrec; try reflexivity; try discriminate.
  by rewrite Hrec.
Qed.

(** C5: the legacy normalizer returns a message for every input and never
    throws.  For an AI message with string content that fails to parse, or
    that parses to a value without an [output] array, the returned message
    is the AI message whose content is that string, verbatim; for an input
    whose [message] is neither an object with [type] and [content] nor a
    string, it is the human fallback message "Unable to parse message". *)
Theorem transformMessage_never_raises (item : HistoryItem) (sourceMap : gmap string JsVal) :
  exists m : EnhancedChatMessage JsVal,
    transformMessage item sourceMap = Return m
    /\ msg_id m = item_id item
    /\ session_id m = item_session_id item
    /\ (forall (fields : list (string * JsVal)) (contentStr : string),
          item_message item = JObj fields ->
          assoc "type" fields = Some (JStr "ai") ->
          assoc "content" fields = Some (JStr contentStr) ->
          (forall v, JSON_parse contentStr = Return v -> outputArray v = None) ->
          type (message m) = ai /\ content (message m) = Plain (JStr contentStr))
    /\ (recognized (item_message item) = false ->
          message m = simpleMessage human (Plain (JStr "Unable to parse message"))).
Proof.
  destruct (transformedMessage_returns (item_message item) sourceMap) as [body Hbody].
  exists {| msg_id := item_id item; session_id := item_session_id item; message := body |}.
  split; [|split; [done|split; [done|split]]].
  - unfold transformMessage. rewrite Hbody. reflexivity.
  - intros fields contentStr Hmsg Hty Hct Hno. cbn [message].
    rewrite Hmsg, (transformedMessage_ai_string fields contentStr sourceMap Hty Hct),
      (parseAiContent_without_output sourceMap contentStr Hno) in Hbody.
    injection Hbody as <-. done.
  - intros Hrec. cbn [message].
    rewrite (transformedMessage_unrecognized _ sourceMap Hrec) in Hbody.
    by injection Hbody as <-.
Qed.

End WithRuntime.

Lemma get_opt_default (fields : list (string * JsVal)) (k : string) :
  get_opt (JObj fields) k = default JUndefined (assoc k fields).
Proof. reflexivity. Qed.

(** C4, as the code has it.  Row path: the entry built from a citation
    whose [source_title] field is missing or empty has title "Unknown
    Source", and one whose [source_type] field is missing or empty has type
    "book".  Legacy path: the entry built from a citation whose source is
    not in the lookup table, or whose looked-up record lacks the title, has
    title "Unknown Source"; when the source is not in the table, or the
    record lacks the type, its type is "pdf". *)
Theorem missing_source_defaults :
  (forall (c : JsVal) (i : nat) (cit : Citation),
      RowNormalizer.transformCitation c i = Return cit ->
      (truthy (get_opt c "source_title") = false -> source_title cit = JStr "Unknown Source")
      /\ (truthy (get_opt c "source_type") = false -> source_type cit = JStr "book"))
  /\ (forall (sourceMap : gmap string JsVal) (k : Z) (c : JsVal) (cit : Citation),
        citationEntry sourceMap k c = Return cit ->
        let sourceInfo := mapGet sourceMap (source_id cit) in
        (truthy (get_opt sourceInfo "title") = false -> source_title cit = JStr "Unknown Source")
        /\ (truthy (get_opt sourceInfo "type") = false -> source_type cit = JStr "pdf")
        /\ (sourceInfo = JUndefined ->
              source_title cit = JStr "Unknown Source" /\ source_type cit = JStr "pdf")).
Proof.
  assert (forall v1 v2, truthy v1 = false -> or_else v1 v2 = v2) as Hor
    by (intros v1 v2 Hv; unfold or_else; by rewrite Hv).
  split.
  - intros c i cit Hcit.
    destruct c; try discriminate; injection Hcit as <-; cbn [source_title source_type];
      (split; intros Hmissing; apply Hor; exact Hmissing).
  - intros sourceMap k c cit Hcit sourceInfo. subst sourceInfo.
    destruct c; try discriminate; injection Hcit as <-;
      (split; [intros Hmissing; apply Hor; exact Hmissing|]);
      (split; [intros Hmissing; apply Hor; exact Hmissing|]);
      intros Hunresolved; cbn [source_id] in Hunresolved;
      (split; apply Hor; try rewrite Hunresolved; reflexivity).
Qed.

Lemma missing_source_defaults_witness :
  (exists cit, RowNormalizer.transformCitation citation_bare 1 = Return cit
               /\ source_title cit = JStr "Unknown Source"
               /\ source_type cit = JStr "book")
  /\ (exists cit, citationEntry sampleSourceMap 1
                    (encodeCitation (mkChunkCitation 0 "b2" 4 9)) = Return cit
                  /\ source_title cit = JStr "Unknown Source"
                  /\ source_type cit = JStr "pdf").
Proof.
  destruct missing_source_defaults as [Hrow Hlegacy]. split.
  - eexists. split; [reflexivity|].
    destruct (Hrow citation_bare 1%nat _ eq_refl) as [Htitle Htype].
    split; [apply Htitle | apply Htype]; reflexivity.
  - eexists. split; [reflexivity|].
    destruct (Hlegacy sampleSourceMap 1 (encodeCitation (mkChunkCitation 0 "b2" 4 9))
                _ eq_refl) as (_ & _ & Hboth).
    apply Hboth. vm_compute. reflexivity.
Defined.

(** The claim fails on both paths: an unresolved legacy citation gets type
    "pdf", not "book"; and a row citation whose source id is in no lookup
    table but which has a title gets that title, not "Unknown Source". *)
Lemma missing_source_defaults_counterexample :
  (exists (cit : Citation),
      citationEntry ∅ 1 (encodeCitation (mkChunkCitation 0 "b2" 4 9)) = Return cit
      /\ mapGet ∅ (source_id cit) = JUndefined
      /\ source_type cit = JStr "pdf"
      /\ source_type cit <> JStr "book")
  /\ (exists (cit : Citation),
        RowNormalizer.transformCitation citation_b1 0 = Return cit
        /\ mapGet ∅ (source_id cit) = JUndefined
        /\ source_title cit = JStr "Book"
        /\ source_title cit <> JStr "Unknown Source").
Proof.
  split; eexists; (split; [reflexivity|]); (split; [reflexivity|]);
    (split; [reflexivity|]); discriminate.
Qed.

Lemma transformMessage_never_raises_witness :
  exists m : EnhancedChatMessage JsVal,
    transformMessage (runtime := sampleRuntime) (legacyAi "not json") sampleSourceMap
      = Return m
    /\ type (message m) = ai
    /\ content (message m) = Plain (JStr "not json").
Proof.
  destruct (@transformMessage_never_raises sampleRuntime (legacyAi "not json") sampleSourceMap)
    as (m & Hm & _ & _ & Hplain & _).
  exists m. split; [exact Hm|].
  apply (Hplain [("type", JStr "ai"); ("content", JStr "not json")] "not json").
  - reflexivity.
  - reflexivity.
  - reflexivity.
  - intros v Hv. vm_compute in Hv. discriminate.
Defined.

Lemma legacy_output_flattening_witness :
  exists (m : EnhancedChatMessage JsVal) (segs : list MessageSegment) (cits : list Citation),
    transformMessage (runtime := sampleRuntime) (legacyAi sampleDocument) sampleSourceMap
      = Return m
    /\ type (message m) = ai
    /\ content (message m) = Structured segs cits
    /\ length segs = length sampleItems
    /\ (forall (i : nat) (it : OutputItem), sampleItems !! i = Some it ->
          segs !! i = Some {| text := JStr (out_text it);
                              seg_citation_id :=
                                if cited it then Some (itemCitationId sampleItems i) else None |}
          /\ itemCitationId sampleItems (S i)
               = itemCitationId sampleItems i + (if cited it then 1 else 0))
    /\ itemCitationId sampleItems 0 = 1
    /\ cits = concat (imap (fun i it =>
                              citationOf sampleSourceMap (itemCitationId sampleItems i)
                                <$> citationsOf it)
                           sampleItems).
Proof.
  apply (@legacy_output_flattening sampleRuntime (legacyAi sampleDocument) sampleSourceMap
           [("type", JStr "ai"); ("content", JStr sampleDocument)] sampleDocument sampleItems).
  - reflexivity.
  - reflexivity.
  - reflexivity.
  - vm_compute. reflexivity.
Defined.

End LegacyFacts.

(** ** The synchronization layer *)

Module SyncFacts.
Import RowNormalizer ChatSync Samples.

Lemma filter_none_nil {A} (P : A -> Prop) `{!forall x, Decision (P x)} (l : list A) :
  (forall x, x ∈ l -> ~ P x) -> filter P l = [].
Proof.
  induction l as [|x l IH]; intros Hnone; [done|].
  rewrite filter_cons, decide_False by (apply Hnone; left).
  apply IH. intros y Hy. apply Hnone. by right.
Qed.

Lemma mergeNewMessages_app (newMessages : list ChatMessage)
    (cached : option (list ChatMessage)) :
  mergeNewMessages newMessages cached
    = (default [] cached
         ++ filter (fun msg : ChatMessage => msg_id msg ∉ idsOf (default [] cached))
                   newMessages)%list.
Proof.
  unfold mergeNewMessages, idsOf. case_decide as Hlen; [|done].
  apply nil_length_inv in Hlen. rewrite Hlen. by rewrite app_nil_r.
Qed.

Lemma elem_of_idsOf (m : ChatMessage) (ms : list ChatMessage) :
  m ∈ ms -> msg_id m ∈ idsOf ms.
Proof.
  intros Hm. unfold idsOf. rewrite elem_of_list_to_set. by apply list_elem_of_fmap_2.
Qed.

Lemma idsOf_app (ms1 ms2 : list ChatMessage) : idsOf (ms1 ++ ms2) = idsOf ms1 ∪ idsOf ms2.
Proof. unfold idsOf. by rewrite fmap_app, list_to_set_app_L. Qed.

Lemma mergeNewMessages_idempotent (newMessages : list ChatMessage)
    (cached : option (list ChatMessage)) :
  mergeNewMessages newMessages (Some (mergeNewMessages newMessages cached))
    = mergeNewMessages newMessages cached.
Proof.
  rewrite (mergeNewMessages_app newMessages (Some _)). cbn [default from_option id].
  rewrite filter_none_nil; [by rewrite app_nil_r|].
  intros m Hm Hfresh. apply Hfresh.
  rewrite mergeNewMessages_app, idsOf_app.
  destruct (decide (msg_id m ∈ idsOf (default [] cached))) as [Hin|Hout].
  - by apply elem_of_union_l.
  - apply elem_of_union_r, elem_of_idsOf, list_elem_of_filter. done.
Qed.

Lemma setQueryData_data (key : string)
    (updater : option (list ChatMessage) -> list ChatMessage) (c : QueryCache) :
  setQueryData key updater c !! key ≫= data = Some (updater (c !! key ≫= data)).
Proof. unfold setQueryData. by rewrite lookup_insert_eq. Qed.

(** C6: merging the normalized messages of a pushed row into the cache a
    second time changes nothing; the merge leaves the caches of the other
    notebooks alone, keeps the cached messages of the notebook as a prefix
    of the new sequence (nothing is reordered or updated), and what it
    appends are exactly the normalized messages whose id was not cached, so
    every message with a cached id is skipped. *)
Theorem push_merge_idempotent_insert_once (notebookId : string)
    (booksData : option (list Book)) (payload_new : ChatRow) (c : QueryCache) :
  let c1 := onInsert notebookId booksData payload_new c in
  let before := default [] (c !! notebookId ≫= data) in
  let after := default [] (c1 !! notebookId ≫= data) in
  onInsert notebookId booksData payload_new c1 = c1
  /\ (forall other : string, other <> notebookId -> c1 !! other = c !! other)
  /\ exists added : list ChatMessage,
       after = (before ++ added)%list
       /\ (forall m, m ∈ added -> msg_id m ∉ idsOf before)
       /\ (forall newMessages,
             transformDbRowToChatMessages payload_new (makeBookMap booksData)
               = Return newMessages ->
             added = filter (fun m : ChatMessage => msg_id m ∉ idsOf before) newMessages).
Proof.
  intros c1 before after. subst c1 before after. unfold onInsert.
  destruct (transformDbRowToChatMessages payload_new (makeBookMap booksData))
    as [newMessages|e].
  - split; [|split].
    + unfold setQueryData at 1. rewrite setQueryData_data, mergeNewMessages_idempotent.
      unfold setQueryData. by rewrite insert_insert_eq.
    + intros other Hother. unfold setQueryData. by rewrite lookup_insert_ne.
    + exists (filter (fun m : ChatMessage =>
                        msg_id m ∉ idsOf (default [] (c !! notebookId ≫= data)))
                     newMessages).
      split; [|split].
      * rewrite setQueryData_data. cbn [default from_option id].
        apply mergeNewMessages_app.
      * intros m Hm. by apply list_elem_of_filter in Hm as [Hfresh _].
      * intros ms [= <-]. reflexivity.
  - split; [done|split; [done|]]. exists []. split; [by rewrite app_nil_r|].
    split; [intros m Hm; by apply elem_of_nil in Hm | intros ms [=]].
Qed.

Lemma filter_eqNotebook_deleted (notebookId : string) (tbl : Table) :
  filter (fun r => eqNotebook notebookId r = true)
         (filter (fun r => eqNotebook notebookId r = false) tbl) = [].
Proof.
  apply filter_none_nil. intros r Hr Heq.
  apply list_elem_of_filter in Hr as [Hne _]. congruence.
Qed.

Lemma queryFn_after_delete (notebookId : string) (booksData : option (list Book))
    (tbl : Table) :
  queryFn (Some notebookId) None booksData
          (filter (fun r => eqNotebook notebookId r = false) tbl) = Return [].
Proof.
  unfold queryFn. destruct (String.eqb notebookId ""); [done|].
  by rewrite filter_eqNotebook_deleted.
Qed.

Lemma deleteOnSuccess_entry (notebookId : string) (c : QueryCache) :
  deleteOnSuccess notebookId c !! notebookId = Some (mkQueryState (Some []) true).
Proof.
  unfold deleteOnSuccess, invalidateQueries, setQueryData.
  by rewrite lookup_alter_eq, lookup_insert_eq.
Qed.

(** C7, as the code has it: when the delete succeeds, the layer sets the
    cached sequence of that notebook to the empty sequence and then
    invalidates the query as well, so that it is refetched; the table holds
    no row of the notebook any more, so the messages listed right away are
    none, the refetch returns none, and the list is still empty after it. *)
Theorem deleteChatHistory_clears_then_invalidates (user notebookId : string)
    (booksData : option (list Book)) (st : State) :
  let st' := deleteChatHistory (Some user) None notebookId st in
  cache st' !! notebookId = Some (mkQueryState (Some []) true)
  /\ table st' = filter (fun r => eqNotebook notebookId r = false) (table st)
  /\ messages notebookId st' = []
  /\ queryFn (Some notebookId) None booksData (table st') = Return []
  /\ messages notebookId (refetch notebookId None booksData st') = [].
Proof.
  intros st'. subst st'. unfold deleteChatHistory, deleteMutationFn. cbn [table cache].
  pose proof (deleteOnSuccess_entry notebookId (cache st)) as Hentry.
  split; [exact Hentry|]. split; [done|]. split; [|split].
  - unfold messages. cbn [cache]. by rewrite Hentry.
  - apply queryFn_after_delete.
  - unfold refetch. cbn [table]. rewrite queryFn_after_delete.
    unfold messages. cbn [cache]. by rewrite setQueryData_data.
Qed.

(** After a successful delete the query of the notebook is invalidated
    (to be refetched), not only replaced by the empty sequence. *)
Lemma deleteChatHistory_invalidates_counterexample :
  exists q : QueryState,
    cache (deleteChatHistory (Some "u1") None "n1" sampleState) !! "n1" = Some q
    /\ data q = Some []
    /\ isInvalidated q = true
    /\ isInvalidated q <> false.
Proof.
  exists (mkQueryState (Some []) true).
  split; [|split; [done|split; [done|discriminate]]].
  apply (deleteOnSuccess_entry "n1").
Qed.

End SyncFacts.

(** ** Retry policy *)

Module RetryFacts.
Import Retry Samples.

Lemma useNotebooks_retry_true (failureCount : nat) (error : QueryError) :
  useNotebooks_retry failureCount error = true ->
  (failureCount < 3)%nat /\ isAuthError error = false.
Proof.
  unfold useNotebooks_retry, isAuthError.
  destruct (messageIncludes error "JWT" || messageIncludes error "auth"); [done|].
  intros Hlt. split; [|done]. by apply Nat.ltb_lt.
Qed.

Section QueryClient.
Variable defaultRetry : nat -> QueryError -> bool.

(** A policy that stops at three failures makes the fetch loop end within
    four attempts, hence after at most three retries. *)
Lemma fetchLoop_bounded (opts : QueryOptions) (attempt : nat -> option QueryError) :
  (forall n e, shouldRetry defaultRetry opts n e = true -> (n < 3)%nat) ->
  forall (fuel k : nat), (3 < k + fuel)%nat -> (k <= 3)%nat ->
    exists outcome retries,
      fetchLoop defaultRetry opts attempt fuel k = Some (outcome, retries)
      /\ (k <= retries <= 3)%nat.
Proof.
  intros Hpolicy. induction fuel as [|fuel IH]; intros k Hfuel Hk; [lia|].
  cbn [fetchLoop]. destruct (attempt k) as [e|]; [|exists None, k; split; [done|lia]].
  destruct (shouldRetry defaultRetry opts k e) eqn:Hretry;
    [|exists (Some e), k; split; [done|lia]].
  apply Hpolicy in Hretry.
  destruct (IH (S k)) as (o & r & Hloop & Hr); [lia|lia|].
  exists o, r. split; [done|lia].
Qed.

End QueryClient.

(** C8, as the code has it: whatever the client's default policy, the
    notebooks read is retried only while fewer than three fetches have failed
    and only when the error message contains neither "JWT" nor "auth"; its
    fetch loop ends after at most three retries, and after none when the
    first failure is an authentication error.  The chat-messages read gives
    no policy of its own and follows the client's default, which for the
    library's stock default means at most three retries, decided without
    looking at the error. *)
Theorem read_retry_policies (defaultRetry : nat -> QueryError -> bool)
    (attempt : nat -> option QueryError) :
  (forall n e, shouldRetry defaultRetry notebooksQueryOptions n e = true ->
               (n < 3)%nat /\ isAuthError e = false)
  /\ (exists outcome retries,
        fetchLoop defaultRetry notebooksQueryOptions attempt 4 0 = Some (outcome, retries)
        /\ (retries <= 3)%nat
        /\ (forall e, attempt 0%nat = Some e -> isAuthError e = true ->
                      outcome = Some e /\ retries = 0%nat))
  /\ (forall n e, shouldRetry defaultRetry chatMessagesQueryOptions n e = defaultRetry n e)
  /\ (forall n e, shouldRetry libraryDefaultRetry chatMessagesQueryOptions n e
                  = (n <? 3)%nat)
  /\ (exists outcome retries,
        fetchLoop libraryDefaultRetry chatMessagesQueryOptions attempt 4 0
          = Some (outcome, retries)
        /\ (retries <= 3)%nat).
Proof.
  split; [|split; [|split; [done|split; [done|]]]].
  - intros n e. apply useNotebooks_retry_true.
  - destruct (fetchLoop_bounded defaultRetry notebooksQueryOptions attempt) with (fuel := 4%nat) (k := 0%nat)
      as (o & r & Hloop & Hr); [|lia|lia|].
    { intros n e Hretry. by apply useNotebooks_retry_true in Hretry as [? _]. }
    exists o, r. split; [done|split; [lia|]].
    intros e He Hauth. cbn [fetchLoop] in Hloop. rewrite He in Hloop.
    unfold shouldRetry in Hloop. cbn [retry notebooksQueryOptions] in Hloop.
    unfold useNotebooks_retry in Hloop. unfold isAuthError in Hauth.
    rewrite Hauth in Hloop. by injection Hloop as <- <-.
  - destruct (fetchLoop_bounded libraryDefaultRetry chatMessagesQueryOptions attempt)
      with (fuel := 4%nat) (k := 0%nat) as (o & r & Hloop & Hr); [|lia|lia|].
    { intros n e Hretry. apply Nat.ltb_lt. exact Hretry. }
    exists o, r. split; [done|lia].
Qed.

Lemma read_retry_policies_witness :
  fetchLoop libraryDefaultRetry notebooksQueryOptions (alwaysFailing jwtExpired) 4 0
    = Some (Some jwtExpired, 0%nat).
Proof.
  destruct (read_retry_policies libraryDefaultRetry (alwaysFailing jwtExpired))
    as (_ & (o & r & Hloop & _ & Hauth) & _).
  destruct (Hauth jwtExpired eq_refl eq_refl) as [-> ->]. exact Hloop.
Defined.

(** The chat-messages read retries an authentication failure: with the
    library's default policy a read that keeps failing with "JWT expired" is
    retried three times. *)
Lemma chat_messages_read_retries_auth_error :
  isAuthError jwtExpired = true
  /\ shouldRetry libraryDefaultRetry chatMessagesQueryOptions 0 jwtExpired = true
  /\ fetchLoop libraryDefaultRetry chatMessagesQueryOptions (alwaysFailing jwtExpired) 4 0
      = Some (Some jwtExpired, 3%nat).
Proof. repeat split. Qed.

End RetryFacts.

(** ** The edge functions *)

Module EdgeFacts.
Import RowNormalizer Edge Samples.

Lemma errorResponse_shape (fallback e : string) :
  status (errorResponse fallback e) = 500
  /\ exists msg, body (errorResponse fallback e) = JObj [("error", JStr msg)].
Proof.
  split; [reflexivity|]. unfold errorResponse, newResponse, or_else. cbn [body].
  destruct (truthy (JStr e)); eauto.
Qed.

(** The [try] block of [send-chat-message] either throws and leaves the
    table as it was, or appends one row, which it does only after the
    notebook lookup and the backend call succeeded. *)
Lemma sendChatMessageBody_cases (req : Request) (env : SendEnv) (tbl : list ChatRow) :
  (exists e, sendChatMessageBody req env tbl = (Throw e, tbl))
  \/ (exists resp row backendResponse,
        sendChatMessageBody req env tbl = (Return resp, (tbl ++ [row])%list)
        /\ status resp = 200
        /\ error (notebookResult env) = None
        /\ fetchResult env = Return backendResponse
        /\ ok backendResponse = true
        /\ insertError env = None).
Proof.
  unfold sendChatMessageBody, insertChatMessage, lift, throw.
  unfold mbind, mret, Handler_bind, Handler_ret.
  destruct (json req) as [j|]; [|eauto].
  destruct (get j "notebookId") as [notebookId|]; [|eauto].
  destruct (get j "message") as [message|]; [|eauto].
  destruct (negb (truthy notebookId) || negb (truthy message)); [eauto|].
  destruct (error (notebookResult env)) as [m|]; [eauto|].
  destruct (data (notebookResult env)) as [notebook|]; [|eauto].
  destruct (fetchResult env) as [backendResponse|]; [|eauto].
  destruct (ok backendResponse) eqn:Hok; cbn [negb]; [|eauto].
  destruct (fetch_json backendResponse) as [backendData|]; [|eauto].
  destruct (get backendData "response") as [resp|]; [|eauto].
  destruct (get backendData "message") as [msg|]; [|eauto].
  destruct (get backendData "citations") as [cits|]; [|eauto].
  destruct (insertError env) as [m|]; [eauto|].
  right. eexists _, _, backendResponse. repeat split; done.
Qed.

(** C9, as the code has it: the answer of each handler (send-chat-message
    and both variants of create-notebook) to an OPTIONS request is a response
    with no body, the CORS headers (any origin allowed), and the default
    status 200, since the handler sets no status; the table is not
    touched. *)
Theorem options_preflight_response (req : Request) (senv : SendEnv) (cenv : CreateEnv)
    (chatTable : list ChatRow) (notebooks : list JsVal) :
  method req = "OPTIONS" ->
  sendChatMessage req senv chatTable = (mkResponse 200 corsHeaders JNull, chatTable)
  /\ createNotebook req cenv notebooks = (mkResponse 200 corsHeaders JNull, notebooks)
  /\ createNotebookBlocking req cenv notebooks
      = (mkResponse 200 corsHeaders JNull, notebooks)
  /\ ("Access-Control-Allow-Origin", "*") ∈ corsHeaders.
Proof.
  intros Hmethod.
  unfold sendChatMessage, createNotebook, createNotebookBlocking.
  rewrite Hmethod. cbn [String.eqb]. rewrite !Ascii.eqb_refl.
  repeat split. unfold corsHeaders. by left.
Qed.

Lemma options_preflight_response_witness :
  sendChatMessage optionsRequest backendDownEnv [] = (mkResponse 200 corsHeaders JNull, [])
  /\ createNotebook optionsRequest createEnv [] = (mkResponse 200 corsHeaders JNull, [])
  /\ createNotebookBlocking optionsRequest createEnv []
      = (mkResponse 200 corsHeaders JNull, [])
  /\ ("Access-Control-Allow-Origin", "*") ∈ corsHeaders.
Proof.
  apply (options_preflight_response optionsRequest backendDownEnv createEnv [] []).
  reflexivity.
Defined.

(** The pre-flight answer of either endpoint has status 200, not 204. *)
Lemma options_preflight_status_counterexample :
  method optionsRequest = "OPTIONS"
  /\ status (sendChatMessage optionsRequest backendDownEnv []).1 = 200
  /\ status (createNotebookBlocking optionsRequest createEnv []).1 = 200
  /\ status (createNotebook optionsRequest createEnv []).1 = 200
  /\ status (sendChatMessage optionsRequest backendDownEnv []).1 <> 204.
Proof. repeat split. discriminate. Qed.

(** C10: for a request other than the pre-flight, when the notebook lookup
    fails or the backend answers with a non-OK status, the handler returns
    status 500 with an [{error}] payload and the [chat_messages] table is
    what it was; and whenever the handler does change the table, the lookup
    had succeeded, the backend had answered OK, and the change is one
    appended row. *)
Theorem chat_row_written_only_after_backend_success (req : Request) (env : SendEnv)
    (tbl : list ChatRow) :
  (method req <> "OPTIONS" ->
   error (notebookResult env) <> None
     \/ (exists r, fetchResult env = Return r /\ ok r = false) ->
   exists msg,
     sendChatMessage req env tbl
       = (mkResponse 500 jsonHeaders (JObj [("error", JStr msg)]), tbl))
  /\ ((sendChatMessage req env tbl).2 <> tbl ->
      error (notebookResult env) = None
      /\ (exists r, fetchResult env = Return r /\ ok r = true)
      /\ exists row, (sendChatMessage req env tbl).2 = (tbl ++ [row])%list).
Proof.
  pose proof (sendChatMessageBody_cases req env tbl) as Hcases.
  split.
  - intros Hmethod Hfail. unfold sendChatMessage, respond.
    apply String.eqb_neq in Hmethod. rewrite Hmethod.
    destruct Hcases as [[e ->] | (resp & row & r & _ & _ & Hlookup & Hfetch & Hok & _)].
    + destruct (errorResponse_shape "Failed to process chat message" e) as [_ [msg Hmsg]].
      exists msg. unfold errorResponse, newResponse in *. cbn [body] in Hmsg.
      by rewrite Hmsg.
    + exfalso. destruct Hfail as [Hfail | (r' & Hfetch' & Hok')]; [done|].
      rewrite Hfetch in Hfetch'. injection Hfetch' as <-. congruence.
  - unfold sendChatMessage, respond.
    destruct (String.eqb (method req) "OPTIONS"); [done|].
    destruct Hcases as [[e ->] | (resp & row & r & -> & _ & Hlookup & Hfetch & Hok & _)];
      [done|].
    cbn [snd]. intros _. split; [done|]. split; [by exists r | by exists row].
Qed.

Lemma chat_row_written_only_after_backend_success_witness :
  exists msg,
    sendChatMessage chatRequest backendDownEnv [r1]
      = (mkResponse 500 jsonHeaders (JObj [("error", JStr msg)]), [r1]).
Proof.
  destruct (chat_row_written_only_after_backend_success chatRequest backendDownEnv [r1])
    as [Hfail _].
  apply Hfail.
  - discriminate.
  - right. exists backendDown. split; reflexivity.
Defined.

End EdgeFacts.

(** ** More on the row normalizer *)

Module RowExtras.
Import RowNormalizer Samples.

Lemma mapi_exc_throws (cs : list JsVal) :
  Exists (fun c => nullish c = true) cs ->
  forall k : nat, exists e, mapi_exc transformCitation cs k = Throw e.
Proof.
  induction 1 as [c cs Hc | c cs _ IH]; intros k.
  - destruct c; try discriminate; eexists; reflexivity.
  - destruct (IH (S k)) as [e He]. cbn [mapi_exc].
    destruct (transformCitation c k) as [cit|e']; [|by eexists].
    cbn [mbind Exc_bind]. rewrite He. by eexists.
Qed.

Lemma nullish_split (cs : list JsVal) :
  Exists (fun c => nullish c = true) cs \/ Forall (fun c => nullish c = false) cs.
Proof.
  induction cs as [|c cs [IH|IH]]; [by right| |].
  - left. by right.
  - destruct (nullish c) eqn:Hc; [left; by left | right; by constructor].
Qed.

(** X1: The normalizer throws exactly on an answered row whose [citations] is
    an array holding a [null] or [undefined] element; on every other row it
    returns. *)
Theorem transformDbRowToChatMessages_throws_iff (item : ChatRow)
    (bookMap : gmap string JsVal) :
  (exists e, transformDbRowToChatMessages item bookMap = Throw e)
  <-> truthy (assistant_response item) = true
      /\ exists cs, row_citations item = JArr cs
                    /\ Exists (fun c => nullish c = true) cs.
Proof.
  unfold transformDbRowToChatMessages, messageContent.
  destruct (truthy (assistant_response item)); [|split; [intros [e [=]] | intros [[=] _]]].
  destruct (row_citations item) as [| | | | |cs|fields];
    try solve [split; [intros [e [=]] | intros [_ (cs' & [=] & _)]]].
  destruct (nullish_split cs) as [Hbad|Hgood].
  - split; [intros _; split; [done|by exists cs]|]. intros _.
    destruct cs as [|c cs]; [by apply Exists_nil in Hbad|].
    replace (0 <? Z.of_nat (length (c :: cs))) with true
      by (symmetry; apply Z.ltb_lt; simpl; lia).
    destruct (mapi_exc_throws (c :: cs) Hbad 0) as [e He]. rewrite He. by eexists.
  - split.
    + intros [e He]. exfalso.
      destruct (0 <? Z.of_nat (length cs)); [|discriminate].
      destruct (RowFacts.mapi_exc_transformCitation cs Hgood 0) as (cits & Hcits & _).
      rewrite Hcits in He. discriminate.
    + intros [_ (cs' & [= <-] & Hbad)]. exfalso.
      apply Exists_exists in Hbad as (c & Hc & Hnull).
      rewrite Forall_forall in Hgood. specialize (Hgood c Hc). congruence.
Qed.

(** X2: An answered row whose [citations] is not a non-empty array (absent,
    [null], an empty array, anything else) gives exactly two messages: the
    human message, of type human with the user message as content, and the
    assistant message, with id "<rowId>-assistant", of type ai and with the
    response as plain content. *)
Theorem plain_reply_without_citations (item : ChatRow) (bookMap : gmap string JsVal) :
  truthy (assistant_response item) = true ->
  (forall c cs, row_citations item <> JArr (c :: cs)) ->
  exists u a : EnhancedChatMessage string,
    transformDbRowToChatMessages item bookMap = Return [u; a]
    /\ msg_id u = toString (row_id item) +:+ "-user"
    /\ type (message u) = human
    /\ content (message u) = Plain (user_message item)
    /\ msg_id a = toString (row_id item) +:+ "-assistant"
    /\ session_id a = notebook_id item
    /\ type (message a) = ai
    /\ content (message a) = Plain (assistant_response item).
Proof.
  intros Hresp Hcits.
  exists (userMessage item), (assistantMessage item (Plain (assistant_response item))).
  split; [|repeat split].
  unfold transformDbRowToChatMessages, messageContent. rewrite Hresp.
  destruct (row_citations item) as [| | | | |cs|fields]; try reflexivity.
  destruct cs as [|c cs]; [reflexivity|]. by destruct (Hcits c cs).
Qed.

Lemma plain_reply_without_citations_witness :
  exists u a : EnhancedChatMessage string,
    transformDbRowToChatMessages r3 ∅ = Return [u; a]
    /\ msg_id u = "r3-user"
    /\ type (message u) = human
    /\ content (message u) = Plain (JStr "Why?")
    /\ msg_id a = "r3-assistant"
    /\ session_id a = JStr "n1"
    /\ type (message a) = ai
    /\ content (message a) = Plain (JStr "Because.").
Proof.
  apply (plain_reply_without_citations r3 ∅); [reflexivity | discriminate].
Defined.

End RowExtras.

(** ** More on the synchronization layer *)

Module ChatSyncExtras.
Import RowNormalizer ChatSync Samples.

Lemma list_ascii_of_string_app (s1 s2 : string) :
  String.list_ascii_of_string (s1 +:+ s2)
    = (String.list_ascii_of_string s1 ++ String.list_ascii_of_string s2)%list.
Proof. induction s1 as [|a s1 IH]; simpl; [done|]. by rewrite IH. Qed.

Lemma append_inj_suffix (s1 s2 t : string) : s1 +:+ t = s2 +:+ t -> s1 = s2.
Proof.
  intros Heq. apply (f_equal String.list_ascii_of_string) in Heq.
  rewrite !list_ascii_of_string_app in Heq. apply app_inv_tail in Heq.
  rewrite <- (String.string_of_list_ascii_of_string s1), Heq.
  apply String.string_of_list_ascii_of_string.
Qed.

Lemma user_id_not_assistant_id (a b : string) : a +:+ "-user" <> b +:+ "-assistant".
Proof.
  intros Heq. apply (f_equal String.list_ascii_of_string) in Heq.
  rewrite !list_ascii_of_string_app in Heq. apply (f_equal reverse) in Heq.
  rewrite !reverse_app in Heq. vm_compute in Heq. discriminate.
Qed.

Lemma filter_all_id {A} (P : A -> Prop) `{!forall x, Decision (P x)} (l : list A) :
  (forall x, x ∈ l -> P x) -> filter P l = l.
Proof.
  induction l as [|x l IH]; intros Hall; [done|].
  rewrite filter_cons, decide_True by (apply Hall; left).
  f_equal. apply IH. intros y Hy. apply Hall. by right.
Qed.

Lemma transform_row_shape (item : ChatRow) (bookMap : gmap string JsVal)
    (ms : list ChatMessage) :
  transformDbRowToChatMessages item bookMap = Return ms ->
  ms = [userMessage item] \/ exists c, ms = [userMessage item; assistantMessage item c].
Proof.
  unfold transformDbRowToChatMessages.
  destruct (truthy (assistant_response item)); [|intros [= <-]; by left].
  destruct (messageContent item) as [c|e]; [|done]. intros [= <-]. right. by exists c.
Qed.

Lemma transform_row_ids (item : ChatRow) (bookMap : gmap string JsVal)
    (ms : list ChatMessage) :
  transformDbRowToChatMessages item bookMap = Return ms ->
  msg_id <$> ms = [rowKey item +:+ "-user"]
  \/ msg_id <$> ms = [rowKey item +:+ "-user"; rowKey item +:+ "-assistant"].
Proof.
  unfold transformDbRowToChatMessages.
  destruct (truthy (assistant_response item)); [|intros [= <-]; by left].
  destruct (messageContent item) as [c|e]; [|done]. intros [= <-]. by right.
Qed.

Lemma transform_row_ids_NoDup (item : ChatRow) (bookMap : gmap string JsVal)
    (ms : list ChatMessage) :
  transformDbRowToChatMessages item bookMap = Return ms -> NoDup (msg_id <$> ms).
Proof.
  intros Hms. destruct (transform_row_ids item bookMap ms Hms) as [-> | ->].
  - apply NoDup_singleton.
  - apply NoDup_cons. split; [|apply NoDup_singleton].
    rewrite list_elem_of_singleton. apply user_id_not_assistant_id.
Qed.

Lemma flatMap_exc_app {A B} (f : A -> Exc (list B)) (l1 l2 : list A) :
  flatMap_exc f (l1 ++ l2)
    = (a ← flatMap_exc f l1; b ← flatMap_exc f l2; mret (a ++ b)%list).
Proof.
  induction l1 as [|x l1 IH]; cbn [flatMap_exc app].
  - cbn [mbind mret Exc_bind Exc_ret]. by destruct (flatMap_exc f l2).
  - destruct (f x) as [ys|e]; [|done]. cbn [mbind Exc_bind]. rewrite IH.
    destruct (flatMap_exc f l1) as [a|e]; [|done]. cbn [mbind Exc_bind].
    destruct (flatMap_exc f l2) as [b|e]; [|done]. cbn [mbind mret Exc_bind Exc_ret].
    by rewrite app_assoc.
Qed.

Lemma flatMap_row_ids (bookMap : gmap string JsVal) (rows : list ChatRow) :
  forall ms : list ChatMessage,
    flatMap_exc (fun item => transformDbRowToChatMessages item bookMap) rows = Return ms ->
    forall i, i ∈ msg_id <$> ms ->
      exists r, r ∈ rows /\ (i = rowKey r +:+ "-user" \/ i = rowKey r +:+ "-assistant").
Proof.
  induction rows as [|r rows IH]; intros ms Hms i Hi.
  - injection Hms as <-. by apply elem_of_nil in Hi.
  - cbn [flatMap_exc] in Hms.
    destruct (transformDbRowToChatMessages r bookMap) as [ys|e] eqn:Hys; [|done].
    cbn [mbind Exc_bind] in Hms.
    destruct (flatMap_exc _ rows) as [rest|e]; [|done].
    injection Hms as <-. rewrite fmap_app in Hi. apply elem_of_app in Hi as [Hi|Hi].
    + exists r. split; [by left|].
      destruct (transform_row_ids r bookMap ys Hys) as [Hids|Hids]; rewrite Hids in Hi.
      * apply list_elem_of_singleton in Hi. by left.
      * apply elem_of_cons in Hi as [->|Hi]; [by left|].
        apply list_elem_of_singleton in Hi. by right.
    + destruct (IH rest eq_refl i Hi) as (r' & Hr' & Hid). exists r'. split; [by right|done].
Qed.

Lemma flatMap_row_ids_NoDup (bookMap : gmap string JsVal) (rows : list ChatRow) :
  NoDup (rowKey <$> rows) ->
  forall ms : list ChatMessage,
    flatMap_exc (fun item => transformDbRowToChatMessages item bookMap) rows = Return ms ->
    NoDup (msg_id <$> ms).
Proof.
  induction rows as [|r rows IH]; intros Hrows ms Hms.
  - injection Hms as <-. constructor.
  - cbn [flatMap_exc] in Hms.
    destruct (transformDbRowToChatMessages r bookMap) as [ys|e] eqn:Hys; [|done].
    cbn [mbind Exc_bind] in Hms.
    destruct (flatMap_exc _ rows) as [rest|e] eqn:Hrest; [|done].
    injection Hms as <-. rewrite fmap_cons in Hrows.
    apply NoDup_cons in Hrows as [Hfresh Hrows].
    rewrite fmap_app. apply NoDup_app. split; [|split].
    + by eapply transform_row_ids_NoDup.
    + intros i Hi Hi'.
      destruct (flatMap_row_ids bookMap rows rest Hrest i Hi') as (r' & Hr' & Hid').
      assert (rowKey r' ∈ rowKey <$> rows) as Hkey by (by apply list_elem_of_fmap_2).
      assert (i = rowKey r +:+ "-user" \/ i = rowKey r +:+ "-assistant") as Hid.
      { destruct (transform_row_ids r bookMap ys Hys) as [Hids|Hids]; rewrite Hids in Hi.
        - apply list_elem_of_singleton in Hi. by left.
        - apply elem_of_cons in Hi as [->|Hi]; [by left|].
          apply list_elem_of_singleton in Hi. by right. }
      destruct Hid as [-> | ->], Hid' as [Hid' | Hid'].
      * apply append_inj_suffix in Hid'. simpl in Hkey. by rewrite <- Hid' in Hkey.
      * by apply user_id_not_assistant_id in Hid'.
      * symmetry in Hid'. by apply user_id_not_assistant_id in Hid'.
      * apply append_inj_suffix in Hid'. simpl in Hkey. by rewrite <- Hid' in Hkey.
    + by apply IH.
Qed.

(** X3: The messages listed for a notebook have pairwise distinct ids when the
    rows of the table have pairwise distinct ids. *)
Theorem queryFn_ids_unique (notebookId : option string) (selectError : option string)
    (booksData : option (list Book)) (tbl : Table) (ms : list ChatMessage) :
  NoDup (rowKey <$> tbl) ->
  queryFn notebookId selectError booksData tbl = Return ms ->
  NoDup (msg_id <$> ms).
Proof.
  intros Hrows. unfold queryFn.
  destruct notebookId as [nb|]; [|intros [= <-]; constructor].
  destruct (String.eqb nb ""); [intros [= <-]; constructor|].
  destruct selectError as [e|]; [done|].
  apply flatMap_row_ids_NoDup.
  eapply sublist_NoDup; [exact Hrows|]. apply fmap_sublist, sublist_filter.
Qed.

Lemma queryFn_ids_unique_witness :
  exists ms, queryFn (Some "n1") None None [r1; r2; r3] = Return ms
             /\ NoDup (msg_id <$> ms).
Proof.
  eexists. split; [reflexivity|].
  apply (queryFn_ids_unique (Some "n1") None None [r1; r2; r3]); [|reflexivity].
  apply (bool_decide_unpack _). vm_compute. exact I.
Defined.

(** X4: A push never introduces a duplicate id: when the cached messages of
    the notebook have pairwise distinct ids, they still have after the
    realtime handler ran, whatever row was pushed. *)
Theorem onInsert_keeps_ids_unique (notebookId : string) (booksData : option (list Book))
    (payload_new : ChatRow) (c : QueryCache) :
  NoDup (msg_id <$> default [] (c !! notebookId ≫= data)) ->
  NoDup (msg_id <$> default [] (onInsert notebookId booksData payload_new c
                                  !! notebookId ≫= data)).
Proof.
  intros Hold. unfold onInsert.
  destruct (transformDbRowToChatMessages payload_new (makeBookMap booksData))
    as [newMessages|e] eqn:Hnew; [|done].
  rewrite SyncFacts.setQueryData_data. cbn [default from_option id].
  rewrite SyncFacts.mergeNewMessages_app, fmap_app. apply NoDup_app. split; [done|split].
  - intros i Hi Hi'. apply list_elem_of_fmap in Hi' as (m & -> & Hm).
    apply list_elem_of_filter in Hm as [Hfresh _]. apply Hfresh.
    unfold idsOf. by rewrite elem_of_list_to_set.
  - eapply sublist_NoDup; [by eapply transform_row_ids_NoDup|].
    apply fmap_sublist, sublist_filter.
Qed.

Lemma onInsert_keeps_ids_unique_witness :
  NoDup (msg_id <$> default [] (onInsert "n1" None r2 (cache sampleState) !! "n1" ≫= data)).
Proof.
  apply (onInsert_keeps_ids_unique "n1" None r2 (cache sampleState)).
  apply (bool_decide_unpack _). vm_compute. exact I.
Defined.

(** X5: Every message listed for a notebook carries that notebook as its
    [session_id]. *)
Theorem queryFn_scoped_to_notebook (notebookId : string) (selectError : option string)
    (booksData : option (list Book)) (tbl : Table) (ms : list ChatMessage) :
  queryFn (Some notebookId) selectError booksData tbl = Return ms ->
  forall m, m ∈ ms -> session_id m = JStr notebookId.
Proof.
  unfold queryFn. destruct (String.eqb notebookId "");
    [intros [= <-] m Hm; by apply elem_of_nil in Hm|].
  destruct selectError as [e|]; [done|].
  assert (Forall (fun r => notebook_id r = JStr notebookId)
                 (filter (fun r => eqNotebook notebookId r = true) tbl)) as Hrows.
  { apply Forall_forall. intros r Hr. apply list_elem_of_filter in Hr as [Heq _].
    unfold eqNotebook, strictEqStr in Heq.
    destruct (notebook_id r); try discriminate. by apply String.eqb_eq in Heq as ->. }
  revert ms. induction Hrows as [|r rows Hr _ IH]; intros ms Hms m Hm.
  - injection Hms as <-. by apply elem_of_nil in Hm.
  - cbn [flatMap_exc] in Hms.
    destruct (transformDbRowToChatMessages r (makeBookMap booksData)) as [ys|e'] eqn:Hys;
      [|done].
    cbn [mbind Exc_bind] in Hms.
    destruct (flatMap_exc _ rows) as [rest|e'] eqn:Hrest; [|done].
    injection Hms as <-. apply elem_of_app in Hm as [Hm|Hm]; [|by apply (IH rest)].
    destruct (transform_row_shape r _ ys Hys) as [-> | [c ->]].
    + apply list_elem_of_singleton in Hm as ->. exact Hr.
    + apply elem_of_cons in Hm as [->|Hm]; [exact Hr|].
      apply list_elem_of_singleton in Hm as ->. exact Hr.
Qed.

Lemma queryFn_scoped_to_notebook_witness :
  exists ms, queryFn (Some "n1") None None [r1; r2; r3] = Return ms
             /\ forall m, m ∈ ms -> session_id m = JStr "n1".
Proof.
  eexists. split; [reflexivity|].
  apply (queryFn_scoped_to_notebook "n1" None None [r1; r2; r3]). reflexivity.
Defined.

(** X6: A pushed row that belongs to the notebook and has a new id leaves the
    cache exactly as a refetch after the insert would: when the cache holds
    what the query returned before the row was appended to the table, the
    handler makes it hold what the query returns afterwards; when the row
    cannot be normalized, the query fails and the handler changes nothing. *)
Theorem push_agrees_with_refetch (notebookId : string) (booksData : option (list Book))
    (tbl : Table) (row : ChatRow) (ms : list ChatMessage) (c : QueryCache) :
  notebookId <> "" ->
  eqNotebook notebookId row = true ->
  rowKey row ∉ rowKey <$> tbl ->
  queryFn (Some notebookId) None booksData tbl = Return ms ->
  c !! notebookId ≫= data = Some ms ->
  match queryFn (Some notebookId) None booksData (tbl ++ [row]) with
  | Return ms' =>
      onInsert notebookId booksData row c !! notebookId ≫= data = Some ms'
  | Throw _ => onInsert notebookId booksData row c = c
  end.
Proof.
  intros Hnb Hrow Hfresh Hms Hcache. unfold queryFn in *.
  apply String.eqb_neq in Hnb. rewrite Hnb in *.
  rewrite filter_app, flatMap_exc_app, Hms. cbn [mbind Exc_bind].
  rewrite filter_cons, decide_True, filter_nil by done. cbn [flatMap_exc].
  unfold onInsert.
  destruct (transformDbRowToChatMessages row (makeBookMap booksData))
    as [ys|e] eqn:Hys; [|done].
  cbn [mbind mret Exc_bind Exc_ret]. rewrite app_nil_r.
  rewrite SyncFacts.setQueryData_data, Hcache, SyncFacts.mergeNewMessages_app.
  cbn [default from_option id]. do 2 f_equal.
  apply filter_all_id. intros m Hm Hin.
  unfold idsOf in Hin. rewrite elem_of_list_to_set in Hin.
  destruct (flatMap_row_ids _ _ ms Hms (msg_id m) Hin) as (r & Hr & Hid).
  apply list_elem_of_filter in Hr as [_ Hr].
  assert (rowKey r ∈ rowKey <$> tbl) as Hkey by (by apply list_elem_of_fmap_2).
  assert (msg_id m ∈ msg_id <$> ys) as Hm' by (by apply list_elem_of_fmap_2).
  assert (msg_id m = rowKey row +:+ "-user" \/ msg_id m = rowKey row +:+ "-assistant")
    as Hid'.
  { destruct (transform_row_ids row _ ys Hys) as [Hids|Hids]; rewrite Hids in Hm'.
    - apply list_elem_of_singleton in Hm'. by left.
    - apply elem_of_cons in Hm' as [->|Hm']; [by left|].
      apply list_elem_of_singleton in Hm'. by right. }
  unfold rowKey in *.
  destruct Hid as [Hid|Hid], Hid' as [Hid'|Hid']; rewrite Hid' in Hid.
  - apply append_inj_suffix in Hid. apply Hfresh. by rewrite Hid.
  - symmetry in Hid. by apply user_id_not_assistant_id in Hid.
  - by apply user_id_not_assistant_id in Hid.
  - apply append_inj_suffix in Hid. apply Hfresh. by rewrite Hid.
Qed.

Lemma push_agrees_with_refetch_witness :
  exists ms',
    queryFn (Some "n1") None None [r1; r2; r3] = Return ms'
    /\ onInsert "n1" None r3
         {[ "n1" := mkQueryState (Some [userMessage r1; userMessage r2;
                                        assistantMessage r2
                                          (Structured [ {| text := JStr "A";
                                                           seg_citation_id := Some 1 |} ]
                                             [ mkCitation 1 (JStr "b1") (JStr "Book")
                                                 (JStr "book") (JNum 1) (JNum 3) (JNum 0)
                                                 JUndefined;
                                               mkCitation 2 (JStr "b9")
                                                 (JStr "Unknown Source") (JStr "book")
                                                 JUndefined JUndefined (JNum 1)
                                                 JUndefined ])]) false ]}
         !! "n1" ≫= data = Some ms'.
Proof.
  eexists. split; [reflexivity|].
  eapply (push_agrees_with_refetch "n1" None [r1; r2] r3).
  - discriminate.
  - reflexivity.
  - apply (bool_decide_unpack _). vm_compute. exact I.
  - reflexivity.
  - reflexivity.
Defined.

(** X7: Clearing a notebook's history touches nothing else: the rows of the
    other notebooks stay in the table, in order, and the caches of the other
    notebooks are unchanged; and when nobody is signed in or the delete call
    fails, table and cache are exactly what they were. *)
Theorem deleteChatHistory_scope (user deleteError : option string) (notebookId : string)
    (st : State) :
  let st' := deleteChatHistory user deleteError notebookId st in
  filter (fun r => eqNotebook notebookId r = false) (table st')
    = filter (fun r => eqNotebook notebookId r = false) (table st)
  /\ (forall other, other <> notebookId -> cache st' !! other = cache st !! other)
  /\ (user = None \/ deleteError <> None -> st' = st).
Proof.
  intros st'. subst st'. unfold deleteChatHistory, deleteMutationFn.
  destruct st as [tbl c]. cbn [table cache].
  destruct user as [u|]; [destruct deleteError as [e|]|]; cbn [table cache].
  - split; [done|]. split; [done|]. done.
  - split; [|split].
    + apply list_filter_filter_l. done.
    + intros other Hother. unfold deleteOnSuccess, invalidateQueries, setQueryData.
      by rewrite lookup_alter_ne, lookup_insert_ne.
    + intros [[=]|Hne]; by destruct Hne.
  - split; [done|]. split; [done|]. done.
Qed.

End ChatSyncExtras.

(** ** More on the legacy normalizer *)

Module LegacyExtras.
Import LegacyNormalizer LegacyFormat LegacyInvariant Samples.

Section WithRuntime.
Context {runtime : Runtime}.

Lemma forEachOutput_throws (sourceMap : gmap string JsVal) (items : list JsVal) :
  Exists (fun v => nullish v = true) items ->
  forall acc, exists e, forEachOutput sourceMap items acc = Throw e.
Proof.
  induction 1 as [v items Hv | v items _ IH]; intros acc; cbn [forEachOutput].
  - destruct v; try discriminate; eexists; reflexivity.
  - destruct (processOutputItem sourceMap acc v) as [acc'|e]; [|by eexists].
    cbn [mbind Exc_bind]. apply IH.
Qed.

(** X8: One malformed output item discards the whole structure: when the parsed
    document has an [output] array with a [null] or [undefined] element, the
    AI message keeps its content string verbatim, segments built before the
    bad element included. *)
Theorem malformed_output_item_falls_back (item : HistoryItem)
    (sourceMap : gmap string JsVal) (fields : list (string * JsVal)) (contentStr : string)
    (v : JsVal) (items : list JsVal) :
  item_message item = JObj fields ->
  assoc "type" fields = Some (JStr "ai") ->
  assoc "content" fields = Some (JStr contentStr) ->
  JSON_parse contentStr = Return v ->
  outputArray v = Some items ->
  Exists (fun x => nullish x = true) items ->
  exists m, transformMessage item sourceMap = Return m
            /\ type (message m) = ai
            /\ content (message m) = Plain (JStr contentStr).
Proof.
  intros Hmsg Hty Hct Hparse Hout Hbad.
  unfold transformMessage. rewrite Hmsg.
  rewrite (LegacyFacts.transformedMessage_ai_string fields contentStr sourceMap Hty Hct).
  unfold parseAiContent. rewrite Hparse. cbn [mbind Exc_bind].
  unfold outputArray in Hout. destruct (get v "output") as [o|e]; [|done].
  destruct o; try discriminate. injection Hout as ->. cbn [mbind Exc_bind].
  destruct (forEachOutput_throws sourceMap items Hbad (mkAcc [] [] 1)) as [e ->].
  eexists. split; [reflexivity|]. split; reflexivity.
Qed.

Lemma citationEntry_id (sourceMap : gmap string JsVal) (k : Z) (x : JsVal) (c : Citation) :
  citationEntry sourceMap k x = Return c -> citation_id c = k.
Proof. destruct x; try discriminate; by intros [= <-]. Qed.

Lemma pushCitations_ids (sourceMap : gmap string JsVal) (k : Z) (l : list JsVal) :
  forall cits cits', pushCitations sourceMap k l cits = Return cits' ->
    exists new, cits' = (cits ++ new)%list /\ length new = length l
                /\ forall c, c ∈ new -> citation_id c = k.
Proof.
  induction l as [|x l IH]; intros cits cits' Hpush; cbn [pushCitations] in Hpush.
  - injection Hpush as <-. exists []. split; [by rewrite app_nil_r|]. split; [done|].
    intros c Hc. by apply elem_of_nil in Hc.
  - destruct (citationEntry sourceMap k x) as [c|e] eqn:Hc; [|done].
    cbn [mbind Exc_bind] in Hpush.
    destruct (IH _ _ Hpush) as (new & -> & Hlen & Hids).
    exists (c :: new). split; [by rewrite <- app_assoc|]. split; [simpl; by rewrite Hlen|].
    intros c' [->|Hc']%elem_of_cons; [by eapply citationEntry_id | by apply Hids].
Qed.

Lemma hasCitations_array (v : JsVal) (l : list JsVal) :
  hasCitations v = Return true -> get v "citations" = Return (JArr l) -> l <> [].
Proof.
  unfold hasCitations. intros Hcited Hget. rewrite Hget in Hcited.
  intros ->. discriminate.
Qed.

Lemma processOutputItem_linked (sourceMap : gmap string JsVal) (acc acc' : Acc) (v : JsVal) :
  processOutputItem sourceMap acc v = Return acc' ->
  linkedAcc acc ->
  linkedAcc acc' /\ length (segments acc') = S (length (segments acc)).
Proof.
  unfold processOutputItem. intros Hstep (Hcounter & Hsegs & Hcits).
  destruct (get v "text") as [txt|e]; [|done]. cbn [mbind Exc_bind] in Hstep.
  destruct (hasCitations v) as [[|]|e] eqn:Hcited; [| |done]; cbn [mbind Exc_bind] in Hstep.
  - destruct (get v "citations") as [cs|e] eqn:Hget; [|done]. cbn [mbind Exc_bind] in Hstep.
    destruct cs as [| | | | |l|]; try discriminate.
    destruct (pushCitations sourceMap (citationIdCounter acc) l (citations acc))
      as [cits'|e] eqn:Hpush; [|done].
    injection Hstep as <-. unfold linkedAcc. cbn [segments citations citationIdCounter].
    destruct (pushCitations_ids _ _ _ _ _ Hpush) as (new & -> & Hlen & Hids).
    pose proof (hasCitations_array v l Hcited Hget) as Hne.
    destruct new as [|c0 new]; [by destruct l|].
    split; [|rewrite length_app; simpl; lia].
    split; [rewrite length_app; simpl; lia|]. split.
    + intros seg k [Hseg|Hseg]%elem_of_app Hk.
      * destruct (Hsegs seg k Hseg Hk) as [Hrange (c & Hc & Hid)].
        split; [lia|]. exists c. split; [apply elem_of_app; by left|done].
      * apply list_elem_of_singleton in Hseg as ->. injection Hk as <-.
        split; [lia|]. exists c0. split; [apply elem_of_app; right; by left|].
        apply Hids. by left.
    + intros c [Hc|Hc]%elem_of_app.
      * destruct (Hcits c Hc) as (seg & Hseg & Hid).
        exists seg. split; [apply elem_of_app; by left|done].
      * eexists. split; [apply elem_of_app; right; by apply list_elem_of_singleton|].
        cbn [seg_citation_id]. by rewrite (Hids c Hc).
  - injection Hstep as <-. unfold linkedAcc. cbn [segments citations citationIdCounter].
    split; [|rewrite length_app; simpl; lia].
    split; [rewrite length_app; simpl; lia|]. split.
    + intros seg k [Hseg|Hseg]%elem_of_app Hk; [by apply (Hsegs seg k)|].
      apply list_elem_of_singleton in Hseg as ->. discriminate.
    + intros c Hc. destruct (Hcits c Hc) as (seg & Hseg & Hid).
      exists seg. split; [apply elem_of_app; by left|done].
Qed.

Lemma forEachOutput_linked (sourceMap : gmap string JsVal) (items : list JsVal) :
  forall acc acc', forEachOutput sourceMap items acc = Return acc' ->
    linkedAcc acc ->
    linkedAcc acc'
    /\ length (segments acc') = (length (segments acc) + length items)%nat.
Proof.
  induction items as [|v items IH]; intros acc acc' Hloop Hacc; cbn [forEachOutput] in Hloop.
  - injection Hloop as <-. split; [done|]. simpl. lia.
  - destruct (processOutputItem sourceMap acc v) as [acc1|e] eqn:Hstep; [|done].
    cbn [mbind Exc_bind] in Hloop.
    destruct (processOutputItem_linked _ _ _ _ Hstep Hacc) as [Hacc1 Hlen1].
    destruct (IH _ _ Hloop Hacc1) as [Hacc' Hlen]. split; [done|]. simpl. lia.
Qed.

Lemma parseAiContent_structured (sourceMap : gmap string JsVal) (contentStr : string)
    (segs : list MessageSegment) (cits : list Citation) :
  parseAiContent sourceMap contentStr = Return (Structured segs cits) ->
  linked segs cits.
Proof.
  unfold parseAiContent. destruct (JSON_parse contentStr) as [v|e]; [|done].
  cbn [mbind Exc_bind]. destruct (get v "output") as [o|e]; [|done].
  cbn [mbind Exc_bind]. destruct o as [| | | | |items|]; try discriminate.
  destruct (forEachOutput sourceMap items (mkAcc [] [] 1)) as [acc|e] eqn:Hloop; [|done].
  intros [= <- <-].
  destruct (forEachOutput_linked sourceMap items _ _ Hloop) as [(Hcounter & Hsegs & Hcits) _].
  { split; [simpl; lia|]. split.
    - intros seg k Hseg. by apply elem_of_nil in Hseg.
    - intros c Hc. by apply elem_of_nil in Hc. }
  split; [|done]. intros seg k Hseg Hk.
  destruct (Hsegs seg k Hseg Hk) as [Hrange Hc]. split; [lia|done].
Qed.

(** X9: When the content of a legacy message is a string, the normalizer
    returns a message whose content is either a string or the structure it
    has built from the parsed output array, and that structure is
    cross-referenced: every id on a segment lies between 1 and the number of
    segments and is the id of at least one citation, and every citation
    carries the id of a segment.  (Content that is not a string is handed
    on as it is and is outside this statement.) *)
Theorem legacy_structured_content_linked (item : HistoryItem)
    (sourceMap : gmap string JsVal) (fields : list (string * JsVal)) (contentStr : string) :
  item_message item = JObj fields ->
  assoc "content" fields = Some (JStr contentStr) ->
  exists m : EnhancedChatMessage JsVal,
    transformMessage item sourceMap = Return m
    /\ match content (message m) with
       | Structured segs cits => linked segs cits
       | Plain v => exists s : string, v = JStr s
       end.
Proof.
  intros Hmsg Hcontent.
  unfold transformMessage, transformedMessage. rewrite Hmsg.
  destruct (has_key "type" fields && has_key "content" fields);
    [|eexists; split; [reflexivity|]; cbn [message content simpleMessage]; by eexists].
  unfold get. cbn [mbind Exc_bind]. rewrite Hcontent. cbn [default from_option id].
  destruct (strictEqStr _ "ai").
  - destruct (parseAiContent sourceMap contentStr) as [c|e] eqn:Hparse;
      cbn [catch mbind mret Exc_bind Exc_ret];
      (eexists; split; [reflexivity|]); cbn [message content]; [|by eexists].
    destruct c as [v|segs cits]; [|by eapply parseAiContent_structured].
    revert Hparse. unfold parseAiContent.
    destruct (JSON_parse contentStr) as [pv|e]; [|done].
    cbn [mbind Exc_bind]. destruct (get pv "output") as [o|e]; [|done].
    cbn [mbind Exc_bind].
    destruct o as [| | | | |items|];
      try (intros [= <-]; by eexists).
    destruct (forEachOutput sourceMap items (mkAcc [] [] 1)); done.
  - eexists; split; [reflexivity|]. cbn [message content passThroughMessage].
    unfold or_else. destruct (truthy (JStr contentStr)); by eexists.
Qed.

End WithRuntime.

Lemma legacy_structured_content_linked_witness :
  exists m : EnhancedChatMessage JsVal,
    transformMessage (runtime := sampleRuntime) (legacyAi sampleDocument) sampleSourceMap
      = Return m
    /\ match content (message m) with
       | Structured segs cits => LegacyInvariant.linked segs cits
       | Plain v => exists s : string, v = JStr s
       end.
Proof.
  apply (@legacy_structured_content_linked sampleRuntime (legacyAi sampleDocument)
           sampleSourceMap [("type", JStr "ai"); ("content", JStr sampleDocument)]
           sampleDocument); reflexivity.
Defined.

Lemma malformed_output_item_falls_back_witness :
  exists m, transformMessage (runtime := brokenRuntime) (legacyAi brokenDocument) ∅ = Return m
            /\ type (message m) = ai
            /\ content (message m) = Plain (JStr brokenDocument).
Proof.
  apply (@malformed_output_item_falls_back brokenRuntime (legacyAi brokenDocument) ∅
           [("type", JStr "ai"); ("content", JStr brokenDocument)] brokenDocument
           brokenOutput [JObj [("text", JStr "A")]; JNull]).
  - reflexivity.
  - reflexivity.
  - reflexivity.
  - vm_compute. reflexivity.
  - reflexivity.
  - right. left. reflexivity.
Defined.

End LegacyExtras.

(** ** More on the retry policy and the notebooks hook *)

Module NotebooksExtras.
Import Retry Notebooks Samples.

Lemma notebooks_fetchLoop_from (defaultRetry : nat -> QueryError -> bool)
    (attempt : nat -> option QueryError) (k : nat) :
  (k <= 3)%nat ->
  match attempt k with
  | None => True
  | Some e => isAuthError e = true \/ k = 3%nat
  end ->
  forall (fuel j : nat), (j <= k)%nat -> (k - j < fuel)%nat ->
    (forall i, (j <= i < k)%nat -> exists e, attempt i = Some e /\ isAuthError e = false) ->
    fetchLoop defaultRetry notebooksQueryOptions attempt fuel j = Some (attempt k, k).
Proof.
  intros Hk Hstop. induction fuel as [|fuel IH]; intros j Hj Hfuel Hfail; [lia|].
  cbn [fetchLoop]. destruct (decide (j = k)) as [->|Hne].
  - destruct (attempt k) as [e|]; [|done].
    unfold shouldRetry. cbn [retry notebooksQueryOptions]. unfold useNotebooks_retry.
    unfold isAuthError in Hstop. destruct Hstop as [-> | ->]; [done|].
    by destruct (_ || _).
  - destruct (Hfail j) as (e & -> & Hauth); [lia|].
    unfold shouldRetry. cbn [retry notebooksQueryOptions]. unfold useNotebooks_retry.
    unfold isAuthError in Hauth. rewrite Hauth.
    replace (j <? 3)%nat with true by (symmetry; apply Nat.ltb_lt; lia).
    apply IH; [lia|lia|]. intros i Hi. apply Hfail. lia.
Qed.

(** X10: The notebooks read ends at the first attempt that succeeds, fails with
    an authentication error, or is the fourth: when the attempts before the
    [k]-th (k at most 3) fail with other errors, the loop makes exactly [k]
    retries and ends with the outcome of the [k]-th attempt. *)
Theorem notebooks_read_outcome (defaultRetry : nat -> QueryError -> bool)
    (attempt : nat -> option QueryError) (k : nat) :
  (k <= 3)%nat ->
  (forall i, (i < k)%nat -> exists e, attempt i = Some e /\ isAuthError e = false) ->
  match attempt k with
  | None => True
  | Some e => isAuthError e = true \/ k = 3%nat
  end ->
  fetchLoop defaultRetry notebooksQueryOptions attempt 4 0 = Some (attempt k, k).
Proof.
  intros Hk Hfail Hstop.
  apply (notebooks_fetchLoop_from defaultRetry attempt k Hk Hstop); [lia|lia|].
  intros i Hi. apply Hfail. lia.
Qed.

Lemma notebooks_read_outcome_witness :
  fetchLoop libraryDefaultRetry notebooksQueryOptions flakyRead 4 0 = Some (None, 2%nat).
Proof.
  apply (notebooks_read_outcome libraryDefaultRetry flakyRead 2).
  - lia.
  - intros i Hi. exists (mkQueryError (Some "network down")).
    destruct i as [|[|i]]; [by split|by split|lia].
  - exact I.
Defined.

(** X11: What the notebooks query throws on a failed select, and whether the
    retry function retries it: an error whose message mentions [fetch] is
    replaced by the connection error and is retried while fewer than three
    fetches have failed, even when the message also names the token; any
    other error is thrown as it is and retried unless it is an
    authentication error. *)
Theorem notebooks_select_error_retry (uid : string) (notebooksData : option (list Notebook))
    (e : QueryError) (genreBooks : Notebook -> option (list string)) (failureCount : nat) :
  exists thrown,
    queryFn (Some uid) notebooksData (Some e) genreBooks = inl thrown
    /\ thrown = (if messageIncludes e "fetch" then connectionError else e)
    /\ useNotebooks_retry failureCount thrown
        = (failureCount <? 3)%nat && (messageIncludes e "fetch" || negb (isAuthError e)).
Proof.
  unfold queryFn. destruct (messageIncludes e "fetch") eqn:Hfetch.
  - exists connectionError. split; [done|]. split; [done|].
    unfold useNotebooks_retry.
    replace (messageIncludes connectionError "JWT" || messageIncludes connectionError "auth")
      with false by (vm_compute; reflexivity).
    by rewrite andb_true_r.
  - exists e. split; [done|]. split; [done|].
    unfold useNotebooks_retry, isAuthError. cbn [orb].
    destruct (messageIncludes e "JWT" || messageIncludes e "auth"); cbn [negb].
    + by rewrite andb_false_r.
    + by rewrite andb_true_r.
Qed.

End NotebooksExtras.

(** ** More on the edge functions *)

Module EdgeExtras.
Import RowNormalizer Edge Samples.

Lemma uniq_elem (l : list string) :
  forall (seen : list string) (x : string), x ∈ uniq seen l <-> x ∈ l /\ x ∉ seen.
Proof.
  induction l as [|y l IH]; intros seen x; cbn [uniq].
  - split; [by intros ?%elem_of_nil | by intros [?%elem_of_nil _]].
  - destruct (decide (y ∈ seen)) as [Hy|Hy].
    + rewrite IH, elem_of_cons. split; [intros [? ?]; auto|].
      intros [[->|?] ?]; [done|auto].
    + rewrite elem_of_cons, IH, not_elem_of_cons, elem_of_cons. split.
      * intros [->|(? & ? & ?)]; auto.
      * intros [[->|?] ?]; [by left|]. destruct (decide (x = y)) as [->|?]; auto.
Qed.

Lemma uniq_NoDup (l : list string) : forall seen : list string, NoDup (uniq seen l).
Proof.
  induction l as [|y l IH]; intros seen; cbn [uniq]; [constructor|].
  destruct (decide (y ∈ seen)); [apply IH|].
  apply NoDup_cons. split; [|apply IH].
  rewrite uniq_elem, not_elem_of_cons. intros [_ [? _]]. done.
Qed.

Lemma uniq_length (l : list string) :
  forall seen : list string,
    (length (uniq seen l) <= length l)%nat
    /\ (length (uniq seen l) = length l <-> NoDup l /\ forall x, x ∈ l -> x ∉ seen).
Proof.
  induction l as [|y l IH]; intros seen; cbn [uniq].
  - split; [done|]. split; [intros _; split; [constructor|]|done].
    intros x Hx. by apply elem_of_nil in Hx.
  - destruct (decide (y ∈ seen)) as [Hy|Hy].
    + destruct (IH seen) as [Hle _]. split; [simpl; lia|]. split; [simpl; lia|].
      intros [_ Hfresh]. destruct (Hfresh y); [by left|done].
    + destruct (IH (y :: seen)) as [Hle Heq]. split; [simpl; lia|].
      simpl length. rewrite NoDup_cons. split.
      * intros Hlen. assert (length (uniq (y :: seen) l) = length l) as Hlen' by lia.
        apply Heq in Hlen' as [Hnd Hfresh]. split; [split; [|done]|].
        -- intros Hin. apply Hfresh in Hin. apply Hin. by left.
        -- intros x [->|Hx]%elem_of_cons; [done|].
           apply Hfresh in Hx. by apply not_elem_of_cons in Hx as [_ ?].
      * intros [[Hyl Hnd] Hfresh]. f_equal. apply Heq. split; [done|].
        intros x Hx. apply not_elem_of_cons. split; [by intros ->|].
        apply Hfresh. by right.
Qed.

(** X12: The book ids of the chat context: when genres are selected and the
    select of their books succeeds, the ids are the selected books and the
    genre books together, each once; in every other case (no genre, or that
    select failed) they are the selected books as stored, the failure going
    unnoticed. *)
Theorem allBookIds_spec (notebook : NotebookRow)
    (genreBooks : StoreResult (option (list string))) :
  let ids := allBookIds notebook genreBooks in
  let selected := default [] (selected_books notebook) in
  match selected_genres notebook, error genreBooks, data genreBooks with
  | Some (_ :: _), None, Some genreBookIds =>
      NoDup ids /\ forall x, x ∈ ids <-> x ∈ selected \/ x ∈ genreBookIds
  | _, _, _ => ids = selected
  end.
Proof.
  intros ids selected. subst ids selected. unfold allBookIds.
  destruct (selected_genres notebook) as [[|g gs]|]; [done| |done].
  destruct (error genreBooks); [done|]. destruct (data genreBooks) as [genreBookIds|]; [|done].
  split; [apply uniq_NoDup|]. intros x. rewrite uniq_elem, elem_of_app.
  split; [by intros [? _]|]. intros Hx. split; [done|]. apply not_elem_of_nil.
Qed.

(** X13: The source count shown for a notebook against the books its chat
    uses, when the hook and the edge function see the same selections of the
    notebook and the select of the genre books succeeds with the same list in
    both: the count is never smaller than the number of context ids, and when
    genres are selected the two agree exactly when no book is listed twice
    among the selected books and the genre books. *)
Theorem source_count_vs_context (n : Notebooks.Notebook) (row : NotebookRow)
    (hookGenreBooks : Notebooks.Notebook -> option (list string))
    (edgeGenreBooks : StoreResult (option (list string))) (genreBookIds : list string) :
  selected_books row = Notebooks.nb_selected_books n ->
  selected_genres row = Notebooks.nb_selected_genres n ->
  hookGenreBooks n = Some genreBookIds ->
  data edgeGenreBooks = Some genreBookIds ->
  error edgeGenreBooks = None ->
  let count := Notebooks.sources_count (Notebooks.withCount hookGenreBooks n) in
  let ids := allBookIds row edgeGenreBooks in
  let selected := default [] (selected_books row) in
  (length ids <= count)%nat
  /\ match selected_genres row with
     | Some (_ :: _) => length ids = count <-> NoDup (selected ++ genreBookIds)
     | _ => ids = selected /\ count = length selected
     end.
Proof.
  intros Hsel Hgenres Hhook Hdata Herror count ids selected. subst count ids selected.
  unfold Notebooks.withCount, allBookIds. cbn [Notebooks.sources_count].
  rewrite Hhook, Hdata, Herror, <- Hsel, <- Hgenres.
  destruct (selected_genres row) as [[|g gs]|];
    cbn [default from_option id length Nat.ltb Nat.leb];
    [split; [lia|split; [done|lia]]| |split; [lia|split; [done|lia]]].
  destruct (uniq_length (default [] (selected_books row) ++ genreBookIds) []) as [Hle Heq].
  rewrite length_app in Hle, Heq. split; [exact Hle|]. rewrite Heq.
  split; [by intros [? _]|]. intros Hnd. split; [done|]. intros x _. apply not_elem_of_nil.
Qed.

Lemma source_count_vs_context_witness :
  (length (allBookIds (mkNotebookRow (Some ["b1"; "b2"]) (Some ["poetry"]) "u1")
                      (mkStoreResult (Some ["b2"; "b3"]) None))
   <= Notebooks.sources_count
        (Notebooks.withCount (fun _ => Some ["b2"; "b3"])
           (Notebooks.mkNotebook "n1" "Reading" (Some ["b1"; "b2"]) (Some ["poetry"]))))%nat
  /\ (length (allBookIds (mkNotebookRow (Some ["b1"; "b2"]) (Some ["poetry"]) "u1")
                         (mkStoreResult (Some ["b2"; "b3"]) None))
      = Notebooks.sources_count
          (Notebooks.withCount (fun _ => Some ["b2"; "b3"])
             (Notebooks.mkNotebook "n1" "Reading" (Some ["b1"; "b2"]) (Some ["poetry"])))
      <-> NoDup (["b1"; "b2"] ++ ["b2"; "b3"])).
Proof.
  apply (source_count_vs_context
           (Notebooks.mkNotebook "n1" "Reading" (Some ["b1"; "b2"]) (Some ["poetry"]))
           (mkNotebookRow (Some ["b1"; "b2"]) (Some ["poetry"]) "u1")
           (fun _ => Some ["b2"; "b3"])
           (mkStoreResult (Some ["b2"; "b3"]) None)
           ["b2"; "b3"]); reflexivity.
Defined.

Lemma or_else_truthy (a d : JsVal) : truthy d = true -> truthy (or_else a d) = true.
Proof. intros Hd. unfold or_else. by destruct (truthy a) eqn:Ha. Qed.

Lemma or_else_null (a : JsVal) : or_else a JNull = JNull \/ truthy (or_else a JNull) = true.
Proof. unfold or_else. destruct (truthy a) eqn:Ha; [by right | by left]. Qed.

(** The [try] block of [send-chat-message], in full: it throws with the
    table untouched, or it appends the row made of the request's fields and
    the backend's reply and returns the success payload. *)
Lemma sendChatMessageBody_outcome (req : Request) (env : SendEnv) (tbl : list ChatRow) :
  (exists e, sendChatMessageBody req env tbl = (Throw e, tbl))
  \/ (exists j notebookId message backendResponse backendData row,
        json req = Return j
        /\ get j "notebookId" = Return notebookId
        /\ get j "message" = Return message
        /\ fetchResult env = Return backendResponse
        /\ ok backendResponse = true
        /\ fetch_json backendResponse = Return backendData
        /\ row_id row = JStr (insertedId env)
        /\ notebook_id row = notebookId /\ truthy notebookId = true
        /\ user_message row = message /\ truthy message = true
        /\ truthy (assistant_response row) = true
        /\ (row_citations row = JNull \/ truthy (row_citations row) = true)
        /\ sendChatMessageBody req env tbl
           = (Return (newResponse
                        (JObj [ ("success", JBool true); ("message", rowToJson row);
                                ("response", backendData) ])
                        None jsonHeaders),
              (tbl ++ [row])%list)).
Proof.
  unfold sendChatMessageBody, insertChatMessage, lift, throw.
  unfold mbind, mret, Handler_bind, Handler_ret.
  destruct (json req) as [j|] eqn:Hjson; [|eauto].
  destruct (get j "notebookId") as [notebookId|] eqn:Hgetnb; [|eauto].
  destruct (get j "message") as [message|] eqn:Hgetmsg; [|eauto].
  destruct (truthy notebookId) eqn:Hnb; cbn [negb orb]; [|eauto].
  destruct (truthy message) eqn:Hmsg; cbn [negb]; [|eauto].
  destruct (error (notebookResult env)) as [m|]; [eauto|].
  destruct (data (notebookResult env)) as [notebook|]; [|eauto].
  destruct (fetchResult env) as [backendResponse|] eqn:Hfetch; [|eauto].
  destruct (ok backendResponse) eqn:Hok; cbn [negb]; [|eauto].
  destruct (fetch_json backendResponse) as [backendData|] eqn:Hdata; [|eauto].
  destruct (get backendData "response") as [resp|]; [|eauto].
  destruct (get backendData "message") as [msg|]; [|eauto].
  destruct (get backendData "citations") as [cits|]; [|eauto].
  destruct (insertError env) as [m|]; [eauto|].
  right.
  exists j, notebookId, message, backendResponse, backendData,
    {| row_id := JStr (insertedId env); notebook_id := notebookId;
       user_message := message;
       assistant_response := or_else (or_else resp msg) (JStr "No response");
       row_citations := or_else cits JNull;
       timestamp := JStr (insertedTimestamp env) |}.
  repeat (split; [reflexivity || eassumption|]).
  cbn [assistant_response row_citations]. split; [by apply or_else_truthy|].
  split; [apply or_else_null|reflexivity].
Qed.

(** X14: For a request other than the pre-flight, the status tells whether a row
    was written: either the status is 200, exactly one row, with the id the
    store generated, was appended and the payload carries that row, or the
    status is 500, the table is what it was and the payload is an error. *)
Theorem send_status_tracks_write (req : Request) (env : SendEnv) (tbl : list ChatRow) :
  method req <> "OPTIONS" ->
  (status (sendChatMessage req env tbl).1 = 200
   /\ exists row, (sendChatMessage req env tbl).2 = (tbl ++ [row])%list
                  /\ row_id row = JStr (insertedId env)
                  /\ get (body (sendChatMessage req env tbl).1) "message"
                     = Return (rowToJson row))
  \/ (status (sendChatMessage req env tbl).1 = 500
      /\ (sendChatMessage req env tbl).2 = tbl
      /\ exists msg, body (sendChatMessage req env tbl).1 = JObj [("error", JStr msg)]).
Proof.
  intros Hmethod%String.eqb_neq. unfold sendChatMessage, respond. rewrite Hmethod.
  destruct (sendChatMessageBody_outcome req env tbl)
    as [[e ->] | (j & nb & msg & r & d & row & _ & _ & _ & _ & _ & _ & Hid & _ & _ & _ & _
                  & _ & _ & ->)].
  - right. cbn [fst snd]. split; [done|split; [done|]].
    apply EdgeFacts.errorResponse_shape.
  - left. cbn [fst snd]. split; [done|]. exists row. split; [done|split; [done|]]. reflexivity.
Qed.

Lemma send_status_tracks_write_witness :
  status (sendChatMessage chatRequest backendUpEnv [r1]).1 = 200
  /\ exists row, (sendChatMessage chatRequest backendUpEnv [r1]).2 = [r1; row]
                 /\ row_id row = JStr "r4".
Proof.
  destruct (send_status_tracks_write chatRequest backendUpEnv [r1])
    as [[Hstatus (row & Htbl & Hid & _)] | [Hstatus _]]; [discriminate| |discriminate].
  split; [exact Hstatus|]. exists row. split; [exact Htbl|exact Hid].
Defined.

(** X15: Every row the function writes is an answered turn: its notebook id,
    user message and assistant response are non-empty (the response falls
    back to 'No response'), so the row normalizer, when it returns, gives the
    human message followed by the assistant message. *)
Theorem written_row_is_answered (req : Request) (env : SendEnv) (tbl : list ChatRow)
    (row : ChatRow) :
  (sendChatMessage req env tbl).2 = (tbl ++ [row])%list ->
  truthy (notebook_id row) = true
  /\ truthy (user_message row) = true
  /\ truthy (assistant_response row) = true
  /\ forall bookMap ms,
       transformDbRowToChatMessages row bookMap = Return ms ->
       exists c, ms = [userMessage row; assistantMessage row c].
Proof.
  assert (forall r : ChatRow, tbl <> (tbl ++ [r])%list) as Hgrow.
  { intros r Heq. apply (f_equal length) in Heq. rewrite length_app in Heq. simpl in Heq. lia. }
  unfold sendChatMessage, respond.
  destruct (String.eqb (method req) "OPTIONS"); cbn [snd]; [intros Heq; by apply Hgrow in Heq|].
  destruct (sendChatMessageBody_outcome req env tbl)
    as [[e ->] | (j & nb & msg & r & d & row' & _ & _ & _ & _ & _ & _ & _ & Hnb & Hnbt & Hmsg
                  & Hmsgt & Hresp & _ & ->)]; cbn [snd].
  - intros Heq. by apply Hgrow in Heq.
  - intros Heq. apply app_inv_head in Heq. injection Heq as ->.
    rewrite Hnb, Hmsg. split; [done|split; [done|split; [done|]]].
    intros bookMap ms. unfold transformDbRowToChatMessages. rewrite Hresp.
    destruct (messageContent row) as [c|e]; [|done]. intros [= <-]. by exists c.
Qed.

Lemma written_row_is_answered_witness :
  exists row, (sendChatMessage chatRequest backendUpEnv [r1]).2 = [r1; row]
              /\ truthy (assistant_response row) = true
              /\ transformDbRowToChatMessages row ∅
                 = Return [userMessage row; assistantMessage row (Plain (JStr "A"))].
Proof.
  eexists. split; [reflexivity|].
  destruct (written_row_is_answered chatRequest backendUpEnv [r1] _ eq_refl)
    as (_ & _ & Hresp & _).
  split; [exact Hresp|reflexivity].
Defined.

(** X16: A request whose body cannot be read or lacks a field is refused before
    any collaborator is consulted: the answer is a 500 with the table
    untouched, and it is the same whatever the store and the backend would
    have said. *)
Theorem send_refuses_before_lookup (req : Request) (env env' : SendEnv)
    (tbl : list ChatRow) :
  method req <> "OPTIONS" ->
  (forall j a b, json req = Return j -> get j "notebookId" = Return a ->
                 get j "message" = Return b -> truthy a = false \/ truthy b = false) ->
  sendChatMessage req env tbl = sendChatMessage req env' tbl
  /\ status (sendChatMessage req env tbl).1 = 500
  /\ (sendChatMessage req env tbl).2 = tbl.
Proof.
  intros Hmethod%String.eqb_neq Hbad. unfold sendChatMessage, respond. rewrite Hmethod.
  unfold sendChatMessageBody, lift, throw. unfold mbind, Handler_bind.
  destruct (json req) as [j|]; [|done].
  destruct (get j "notebookId") as [a|] eqn:Ha; [|done].
  destruct (get j "message") as [b|] eqn:Hb; [|done].
  destruct (Hbad j a b eq_refl Ha Hb) as [-> | ->]; cbn [negb orb]; [done|].
  by rewrite orb_true_r.
Qed.

Lemma send_refuses_before_lookup_witness :
  sendChatMessage (mkRequest "POST" (Return (JObj [("notebookId", JStr "n1")])))
                  backendUpEnv [r1]
    = sendChatMessage (mkRequest "POST" (Return (JObj [("notebookId", JStr "n1")])))
                      backendDownEnv [r1]
  /\ status (sendChatMessage (mkRequest "POST" (Return (JObj [("notebookId", JStr "n1")])))
                             backendUpEnv [r1]).1 = 500
  /\ (sendChatMessage (mkRequest "POST" (Return (JObj [("notebookId", JStr "n1")])))
                      backendUpEnv [r1]).2 = [r1].
Proof.
  apply (send_refuses_before_lookup
           (mkRequest "POST" (Return (JObj [("notebookId", JStr "n1")])))
           backendUpEnv backendDownEnv [r1]).
  - discriminate.
  - intros j a b [= <-] _ [= <-]. by right.
Defined.

(** The row [create-notebook] inserts. *)
Lemma insertNotebook_ok (env : CreateEnv) (name user : JsVal) (tbl : list JsVal) :
  create_insertError env = None ->
  insertNotebook env name user tbl
    = (Return (JObj [ ("id", JStr (create_insertedId env)); ("name", name);
                      ("user_id", user); ("selected_books", JArr []);
                      ("selected_genres", JArr []); ("memory_summary", JStr "");
                      ("key_facts", JArr []) ]),
       (tbl ++ [JObj [ ("id", JStr (create_insertedId env)); ("name", name);
                       ("user_id", user); ("selected_books", JArr []);
                       ("selected_genres", JArr []); ("memory_summary", JStr "");
                       ("key_facts", JArr []) ]])%list).
Proof. intros Hok. unfold insertNotebook. by rewrite Hok. Qed.

(** X17: The two variants of [create-notebook] answer alike whenever the backend
    answers OK with a JSON body: same response, same table. *)
Theorem create_variants_agree (req : Request) (env : CreateEnv) (tbl : list JsVal)
    (backendResponse : FetchResponse) (backendData : JsVal) :
  create_fetchResult env = Return backendResponse ->
  ok backendResponse = true ->
  fetch_json backendResponse = Return backendData ->
  createNotebook req env tbl = createNotebookBlocking req env tbl.
Proof.
  intros Hfetch Hok Hdata. unfold createNotebook, createNotebookBlocking.
  destruct (String.eqb (method req) "OPTIONS"); [done|].
  unfold respond, createNotebookBody, createNotebookBlockingBody, lift, throw.
  unfold mbind, mret, Handler_bind, Handler_ret.
  destruct (createArguments req) as [[name user]|e]; [|done].
  rewrite Hfetch. cbn [try_catch Exc_bind fst snd]. rewrite Hok, Hdata. cbn [negb].
  by destruct (insertNotebook env name user tbl) as [[notebook|e] tbl'].
Qed.

Lemma create_variants_agree_witness :
  createNotebook createRequest createUpEnv [] = createNotebookBlocking createRequest createUpEnv [].
Proof.
  apply (create_variants_agree createRequest createUpEnv [] backendUp
           (JObj [("response", JStr "A")])); reflexivity.
Defined.

(** X18: When the backend fails (the call throws, the status is not OK, or the
    body is not JSON) and the request and the insert are fine, the variants
    part: the non-blocking one inserts the notebook, with empty selections,
    and answers 200 with [backend_response: null]; the blocking one answers
    500 and inserts nothing. *)
Theorem create_backend_failure (req : Request) (env : CreateEnv) (tbl : list JsVal)
    (name user : JsVal) :
  method req <> "OPTIONS" ->
  createArguments req = Return (name, user) ->
  create_insertError env = None ->
  match create_fetchResult env with
  | Return r => ok r = false \/ exists e, fetch_json r = Throw e
  | Throw _ => True
  end ->
  let row :=
    JObj [ ("id", JStr (create_insertedId env)); ("name", name); ("user_id", user);
           ("selected_books", JArr []); ("selected_genres", JArr []);
           ("memory_summary", JStr ""); ("key_facts", JArr []) ] in
  createNotebook req env tbl
    = (mkResponse 200 jsonHeaders
         (JObj [ ("success", JBool true); ("notebook", row); ("backend_response", JNull) ]),
       (tbl ++ [row])%list)
  /\ status (createNotebookBlocking req env tbl).1 = 500
  /\ (createNotebookBlocking req env tbl).2 = tbl.
Proof.
  intros Hmethod%String.eqb_neq Hargs Hinsert Hbackend row. subst row.
  unfold createNotebook, createNotebookBlocking. rewrite Hmethod.
  unfold respond, createNotebookBody, createNotebookBlockingBody, lift, throw.
  unfold mbind, mret, Handler_bind, Handler_ret. rewrite Hargs. cbn [fst snd].
  rewrite (insertNotebook_ok env name user tbl Hinsert).
  destruct (create_fetchResult env) as [r|e]; cbn [try_catch Exc_bind]; [|done].
  destruct Hbackend as [-> | [e He]]; cbn [negb]; [done|].
  destruct (ok r); cbn [negb]; [|done]. rewrite He. done.
Qed.

Lemma create_backend_failure_witness :
  status (createNotebook createRequest createEnv []).1 = 200
  /\ length (createNotebook createRequest createEnv []).2 = 1%nat
  /\ status (createNotebookBlocking createRequest createEnv []).1 = 500
  /\ (createNotebookBlocking createRequest createEnv []).2 = [].
Proof.
  destruct (create_backend_failure createRequest createEnv [] (JStr "Physics") (JStr "u1"))
    as (Hnonblocking & Hstatus & Htbl).
  - discriminate.
  - reflexivity.
  - reflexivity.
  - left. reflexivity.
  - rewrite Hnonblocking. split; [reflexivity|]. split; [reflexivity|].
    split; [exact Hstatus|exact Htbl].
Defined.

End EdgeExtras.

(** ** The mutations through the edge functions *)

Module ClientExtras.
Import RowNormalizer Edge Client Samples.

(** X19: Creating a notebook from the client with the non-blocking function: for
    a signed-in user with a non-empty id the outcome depends on the insert
    alone.  When the insert succeeds the mutation returns the inserted row,
    named by the title, or 'Untitled Notebook' when the title is empty,
    whatever the backend answered; when it fails the mutation throws and the
    table is what it was. *)
Theorem createNotebook_from_client (env : CreateEnv) (uid title : string)
    (tbl : list JsVal) :
  uid <> "" ->
  let name := JStr (if String.eqb title "" then "Untitled Notebook" else title) in
  let row :=
    JObj [ ("id", JStr (create_insertedId env)); ("name", name); ("user_id", JStr uid);
           ("selected_books", JArr []); ("selected_genres", JArr []);
           ("memory_summary", JStr ""); ("key_facts", JArr []) ] in
  createNotebookMutation (fun req => createNotebook req env) (Some uid) title tbl
    = match create_insertError env with
      | None => (Return row, (tbl ++ [row])%list)
      | Some _ => (Throw "Edge Function returned a non-2xx status code", tbl)
      end.
Proof.
  intros Huid%String.eqb_neq name row. subst name row.
  unfold createNotebookMutation, invoke, createNotebook, respond, createNotebookBody,
    createArguments, insertNotebook, lift, or_else, truthy.
  unfold mbind, mret, Handler_bind, Handler_ret, Exc_bind, Exc_ret.
  cbn [method json get assoc String.eqb Ascii.eqb Bool.eqb default from_option id].
  rewrite Huid.
  destruct (String.eqb title "") eqn:Htitle; cbn [negb orb]; rewrite ?Htitle;
    destruct (create_insertError env); reflexivity.
Qed.

Lemma createNotebook_from_client_witness :
  createNotebookMutation (fun req => createNotebook req createEnv) (Some "u1") "" []
    = (Return (JObj [ ("id", JStr "n2"); ("name", JStr "Untitled Notebook");
                      ("user_id", JStr "u1"); ("selected_books", JArr []);
                      ("selected_genres", JArr []); ("memory_summary", JStr "");
                      ("key_facts", JArr []) ]),
       [ JObj [ ("id", JStr "n2"); ("name", JStr "Untitled Notebook");
                ("user_id", JStr "u1"); ("selected_books", JArr []);
                ("selected_genres", JArr []); ("memory_summary", JStr "");
                ("key_facts", JArr []) ] ]).
Proof.
  apply (createNotebook_from_client createEnv "u1" "" []). discriminate.
Defined.

(** X20: Sending a message from the client is all or nothing: either the
    mutation throws and no row was written, or it returns the function's
    payload and exactly one row was appended, which holds the notebook id and
    the text that were sent and is the [message] of the payload. *)
Theorem sendMessage_all_or_nothing (env : SendEnv) (user : option string)
    (notebookId content : string) (tbl : list ChatRow) :
  (exists e, sendMessageMutation env user notebookId content tbl = (Throw e, tbl))
  \/ (exists payload row,
        sendMessageMutation env user notebookId content tbl
          = (Return payload, (tbl ++ [row])%list)
        /\ notebook_id row = JStr notebookId
        /\ user_message row = JStr content
        /\ get payload "message" = Return (rowToJson row)).
Proof.
  unfold sendMessageMutation. destruct user as [uid|]; [|left; by eexists].
  unfold invoke.
  pose proof (EdgeExtras.sendChatMessageBody_outcome
                (mkRequest "POST"
                   (Return (JObj [("notebookId", JStr notebookId);
                                  ("message", JStr content)])))
                env tbl) as Hbody.
  unfold sendChatMessage, respond. cbn [method String.eqb Ascii.eqb].
  destruct Hbody as [[e ->] | (j & nb & msg & r & d & row & Hj & Hnb & Hmsg & _ & _ & _ & _
                               & Hrnb & _ & Hrmsg & _ & _ & _ & ->)].
  - left. eexists. reflexivity.
  - right. cbn [json] in Hj. injection Hj as <-.
    cbn in Hnb, Hmsg. injection Hnb as <-. injection Hmsg as <-.
    exists (JObj [ ("success", JBool true); ("message", rowToJson row); ("response", d) ]), row.
    split; [reflexivity|]. split; [done|split; [done|reflexivity]].
Qed.

End ClientExtras.

(** ** The direct-write variant *)

Module DirectWriteExtras.
Import RowNormalizer DirectWrite Samples.

Lemma updateResponse_other_rows (newId response : string) (tbl : list ChatRow) :
  (forall r, r ∈ tbl -> row_id r <> JStr newId) ->
  updateResponse newId response tbl = tbl.
Proof.
  unfold updateResponse. induction tbl as [|r tbl IH]; intros Hfresh; [done|].
  rewrite fmap_cons, IH by (intros r' Hr'; apply Hfresh; by right). f_equal.
  assert (row_id r <> JStr newId) as Hr by (apply Hfresh; by left).
  unfold strictEqStr. destruct (row_id r) as [| | | |s| |]; try done.
  destruct (String.eqb s newId) eqn:Heq; [|done].
  apply String.eqb_eq in Heq as ->. done.
Qed.

(** X21: The direct-write [sendMessage] writes in two steps and does not undo
    the first: for a signed-in user, a successful insert and a new id, a
    failed update throws while the unanswered row stays in the table; a
    successful update stores the canned reply in that row, yet the row the
    mutation returns is the unanswered one.  The other rows are left as they
    were. *)
Theorem direct_sendMessage_two_step_write (uid : string) (updateError : option string)
    (newId newTimestamp notebookId content : string) (tbl : list ChatRow) :
  (forall r, r ∈ tbl -> row_id r <> JStr newId) ->
  let inserted response :=
    {| row_id := JStr newId; notebook_id := JStr notebookId; user_message := JStr content;
       assistant_response := JStr response; row_citations := JNull;
       timestamp := JStr newTimestamp |} in
  sendMessage (Some uid) None updateError newId newTimestamp notebookId content tbl
    = match updateError with
      | Some m => (Throw ("Failed to update with AI response: " +:+ m),
                   (tbl ++ [inserted ""])%list)
      | None => (Return (inserted ""), (tbl ++ [inserted aiResponse])%list)
      end.
Proof.
  intros Hfresh inserted. subst inserted. unfold sendMessage.
  destruct updateError as [m|]; [done|]. f_equal.
  unfold updateResponse. rewrite fmap_app.
  fold (updateResponse newId aiResponse tbl).
  rewrite (updateResponse_other_rows newId aiResponse tbl Hfresh).
  cbn [fmap list_fmap row_id strictEqStr]. by rewrite String.eqb_refl.
Qed.

Lemma direct_sendMessage_two_step_write_witness :
  sendMessage (Some "u1") None (Some "timeout") "r9" "2025-01-02T00:00:00Z" "n1" "Hi" [r1]
    = (Throw "Failed to update with AI response: timeout",
       [ r1;
         {| row_id := JStr "r9"; notebook_id := JStr "n1"; user_message := JStr "Hi";
            assistant_response := JStr ""; row_citations := JNull;
            timestamp := JStr "2025-01-02T00:00:00Z" |} ]).
Proof.
  apply (direct_sendMessage_two_step_write "u1" (Some "timeout") "r9"
           "2025-01-02T00:00:00Z" "n1" "Hi" [r1]).
  intros r Hr. apply list_elem_of_singleton in Hr as ->. discriminate.
Defined.

(** X22: The realtime handler of the direct-write variant adds a pushed row only
    to an empty cache: as soon as the cache holds an entry, every pushed row
    is taken for present and dropped.  In particular, once the query has
    listed a notebook that has a row, no pushed row shows up any more. *)
Theorem direct_push_dropped_when_cached (notebookId : string)
    (booksData : option (list ChatSync.Book)) (tbl : list ChatRow) (r : ChatRow)
    (old : list (list (EnhancedChatMessage string)))
    (newMessage : list (EnhancedChatMessage string)) :
  notebookId <> "" ->
  r ∈ tbl ->
  ChatSync.eqNotebook notebookId r = true ->
  queryFn (Some notebookId) None booksData tbl = Return old ->
  mergeNewMessage newMessage (Some old) = old
  /\ mergeNewMessage newMessage None = [newMessage].
Proof.
  intros Hnb%String.eqb_neq Hr Heq. unfold queryFn. rewrite Hnb. intros [= <-].
  split; [|reflexivity]. unfold mergeNewMessage. cbn [default from_option id].
  assert (r ∈ filter (fun r => ChatSync.eqNotebook notebookId r = true) tbl) as Hin
    by (by apply list_elem_of_filter).
  destruct (filter _ tbl) as [|r0 rows]; [by apply elem_of_nil in Hin|].
  reflexivity.
Qed.

Lemma direct_push_dropped_when_cached_witness :
  mergeNewMessage (transformChatMessage r3 ∅)
                  (Some [transformChatMessage r1 ∅; transformChatMessage r2 ∅])
    = [transformChatMessage r1 ∅; transformChatMessage r2 ∅]
  /\ mergeNewMessage (transformChatMessage r3 ∅) None = [transformChatMessage r3 ∅].
Proof.
  apply (direct_push_dropped_when_cached "n1" None [r1; r2] r1).
  - discriminate.
  - by left.
  - reflexivity.
  - reflexivity.
Defined.

End DirectWriteExtras.
